(** * TeslaJS: the identifier decoder, the numeric clamps and the request gateway

    A shallow embedding of [teslajs.js]: the pure helpers ([clamp],
    [vinDecode], [getPaintColor]) are Rocq functions over a small model of
    JavaScript values; the request gateway ([get_command], [post_command],
    the exported wrappers) runs in a state-and-exception monad whose state
    records the module-level configuration, the console, the requests handed
    to the HTTP transport and the invocations of the completion callback. *)

From Stdlib Require Import ZArith List String Ascii Bool Lia DecimalString.
Import ListNotations.

Local Open Scope string_scope.
Local Open Scope Z_scope.

Set Warnings "-register-all".

(** ** JavaScript values *)

(** Numbers.  The model covers the integer-valued numbers and [NaN] (which
    [charCodeAt] and the arithmetic on it produce); [Num z] prints as the
    decimal numeral of [z], as JavaScript does below 10^21. *)
Inductive number : Type :=
| NaN
| Num (z : Z).

(** Values: the JSON shapes, [undefined], and error objects.  A plain object
    is the list of its own enumerable properties in property order; a string
    is a sequence of code units below 256. *)
Inductive value : Type :=
| VUndefined
| VNull
| VBool (b : bool)
| VNum (n : number)
| VStr (s : string)
| VArr (items : list value)
| VObj (fields : list (string * value))
| VError (name message : string).

Definition object : Type := list (string * value).

(** The outcome of evaluating code that may [throw]. *)
Inductive result (A : Type) : Type :=
| Ret (a : A)
| Throw (e : value).
Arguments Ret {A} a.
Arguments Throw {A} e.

Module Js.

(** [<] and [>] on numbers: every comparison with [NaN] is false. *)
Definition ltb (a b : number) : bool :=
  match a, b with
  | Num x, Num y => x <? y
  | _, _ => false
  end.

Definition gtb (a b : number) : bool := ltb b a.

Definition leb (a b : number) : bool :=
  match a, b with
  | Num x, Num y => x <=? y
  | _, _ => false
  end.

Definition add (a b : number) : number :=
  match a, b with
  | Num x, Num y => Num (x + y)
  | _, _ => NaN
  end.

Definition sub (a b : number) : number :=
  match a, b with
  | Num x, Num y => Num (x - y)
  | _, _ => NaN
  end.

(** ToBoolean. *)
Definition truthy (v : value) : bool :=
  match v with
  | VUndefined | VNull => false
  | VBool b => b
  | VNum NaN => false
  | VNum (Num z) => negb (z =? 0)
  | VStr s => negb (s =? "")%string
  | VArr _ | VObj _ | VError _ _ => true
  end.

(** Number::toString, on [NaN] and on the safe integers (those of
    magnitude at most 2^53 - 1), which JavaScript prints in positional
    decimal; beyond them it rounds, and from 10^21 on it prints an exponent.
    [prints] below marks the values inside this range. *)
Definition number_to_string (n : number) : string :=
  match n with
  | NaN => "NaN"
  | Num z => NilZero.string_of_int (Z.to_int z)
  end.

(** ToString.  An array prints its elements joined by commas, with
    [undefined] and [null] elements printed as the empty string; a plain
    object prints as [[object Object]], which is what [Object.prototype]
    gives it: an object that has a [toString] property of its own has no
    text (the conversion throws), see [prints] below. *)
Fixpoint ToString (v : value) : string :=
  match v with
  | VUndefined => "undefined"
  | VNull => "null"
  | VBool true => "true"
  | VBool false => "false"
  | VNum n => number_to_string n
  | VStr s => s
  | VArr items =>
      (fix join (l : list value) : string :=
         match l with
         | [] => ""
         | x :: r =>
             let e := match x with
                      | VUndefined | VNull => ""
                      | _ => ToString x
                      end in
             match r with
             | [] => e
             | _ :: _ => e ++ "," ++ join r
             end
         end) items
  | VObj _ => "[object Object]"
  | VError name message =>
      if (name =? "")%string then message
      else if (message =? "")%string then name
      else name ++ ": " ++ message
  end.

(** Reading the property [key] of [v].  Only the keys [vin], [option_codes]
    and the like are read this way: no prototype defines them, so the
    result is the own property of a plain object and [undefined] for every
    other value that has properties at all.  Reading a property of
    [undefined] or [null] throws in JavaScript; the callers below test for
    that case first or model the throw themselves. *)
Fixpoint lookup (fields : object) (key : string) : value :=
  match fields with
  | [] => VUndefined
  | (k, v) :: rest => if (k =? key)%string then v else lookup rest key
  end.

Definition get (v : value) (key : string) : value :=
  match v with
  | VObj fields => lookup fields key
  | _ => VUndefined
  end.

(** String.prototype.charCodeAt and charAt. *)
Definition charCodeAt (s : string) (i : nat) : number :=
  match String.get i s with
  | Some c => Num (Z.of_N (N_of_ascii c))
  | None => NaN
  end.

Definition charAt (s : string) (i : nat) : string :=
  match String.get i s with
  | Some c => String c ""
  | None => ""
  end.

Definition TypeError (message : string) : value := VError "TypeError" message.

End Js.

(** ** Module-level helpers *)

(** [clamp]: ensure value is within [min..max]. *)
Definition clamp (value min max : number) : number :=
  let value := if Js.ltb value min then min else value in
  let value := if Js.gtb value max then max else value in
  value.

(** ** The identifier decoder *)

Record VehicleInfo : Type := mkVehicleInfo {
  carType : string;
  awd : bool;
  year : number
}.

Definition ModelS : string := "Model S".
Definition Model3 : string := "Model 3".
Definition ModelX : string := "Model X".
Definition ModelY : string := "Model Y".

Definition set_carType (r : VehicleInfo) (c : string) : VehicleInfo :=
  {| carType := c; awd := awd r; year := year r |}.
Definition set_awd (r : VehicleInfo) (b : bool) : VehicleInfo :=
  {| carType := carType r; awd := b; year := year r |}.
Definition set_year (r : VehicleInfo) (y : number) : VehicleInfo :=
  {| carType := carType r; awd := awd r; year := y |}.

Definition default_info : VehicleInfo :=
  {| carType := "Model S"; awd := false; year := Num 2012 |}.

(** [vinDecode]: the properties decoded from the vehicle's VIN.  A truthy
    [vin] that is not a string has no [charCodeAt] method, and calling it
    throws. *)
Definition vinDecode (vehicle : value) : result VehicleInfo :=
  let result := default_info in
  if negb (Js.truthy vehicle) then Ret result
  else if negb (Js.truthy (Js.get vehicle "vin")) then Ret result
  else
    match Js.get vehicle "vin" with
    | VStr vin =>
        let result :=
          set_year result
            (Js.sub (Js.add (Num 2010) (Js.charCodeAt vin 9))
                    (Js.charCodeAt "A" 0)) in
        let model := Js.charAt vin 3 in
        let result :=
          if (model =? "S")%string then set_carType result "Model S"
          else if (model =? "3")%string then set_carType result "Model 3"
          else if (model =? "X")%string then set_carType result "Model X"
          else if (model =? "Y")%string then set_carType result "Model Y"
          else result in
        let result :=
          if (Js.charAt vin 7 =? "2")%string
             || (Js.charAt vin 7 =? "4")%string
             || (Js.charAt vin 7 =? "B")%string
          then set_awd result true
          else result in
        Ret result
    | _ => Throw (Js.TypeError "vehicle.vin.charCodeAt is not a function")
    end.

(** [getModel]: the car model of the vehicle; reading [carType] propagates
    what [vinDecode] throws. *)
Definition getModel (vehicle : value) : result string :=
  match vinDecode vehicle with
  | Ret r => Ret (carType r)
  | Throw e => Throw e
  end.

(** ** The paint colour lookup *)

(** The [colors] table of [getPaintColor], in source order. *)
Definition colors : object :=
  [ ("PBCW", VStr "white");
    ("PBSB", VStr "black");
    ("PMAB", VStr "metallic brown");
    ("PMBL", VStr "metallic black");
    ("PMMB", VStr "metallic blue");
    ("PMMR", VStr "multi-coat red");
    ("PPMR", VStr "multi-coat red");
    ("PMNG", VStr "steel grey");
    ("PMSG", VStr "metallic green");
    ("PMSS", VStr "metallic silver");
    ("PPSB", VStr "ocean blue");
    ("PPSR", VStr "signature red");
    ("PPSW", VStr "pearl white");
    ("PPTI", VStr "titanium");
    ("PMTG", VStr "metallic grey") ].

(** The alternatives of the regular expression
    [/PBCW|PBSB|PMAB|PMBL|PMMB|PMMR|PPMR|PMNG|PMSG|PMSS|PPSB|PPSR|PPSW|PPTI|PMTG/]. *)
Definition paint_alternatives : list string :=
  [ "PBCW"; "PBSB"; "PMAB"; "PMBL"; "PMMB"; "PMMR"; "PPMR"; "PMNG";
    "PMSG"; "PMSS"; "PPSB"; "PPSR"; "PPSW"; "PPTI"; "PMTG" ].

Module Regex.

(** An alternation of literals tried at the start of [s]: the first
    alternative that matches wins. *)
Fixpoint match_here (alternatives : list string) (s : string) : option string :=
  match alternatives with
  | [] => None
  | a :: rest => if String.prefix a s then Some a else match_here rest s
  end.

(** [s.match(/a1|a2|.../)]: the match at the leftmost position where some
    alternative matches, or [None] for JavaScript's [null]. *)
Fixpoint exec (alternatives : list string) (s : string) : option string :=
  match match_here alternatives s with
  | Some m => Some m
  | None =>
      match s with
      | EmptyString => None
      | String _ rest => exec alternatives rest
      end
  end.

End Regex.

(** [getPaintColor]: the match result (a one-element array, or [null]) is
    used as a property key of [colors], that is through its [ToString]. *)
Definition getPaintColor (vehicle : value) : result value :=
  match vehicle with
  | VUndefined | VNull =>
      Throw (Js.TypeError "Cannot read property 'option_codes' of undefined")
  | _ =>
      match Js.get vehicle "option_codes" with
      | VUndefined | VNull =>
          Throw (Js.TypeError "Cannot read property 'match' of undefined")
      | VStr option_codes =>
          let paintColor :=
            match Regex.exec paint_alternatives option_codes with
            | Some m => VArr [VStr m]
            | None => VNull
            end in
          let name := Js.lookup colors (Js.ToString paintColor) in
          Ret (if Js.truthy name then name else VStr "black")
      | _ => Throw (Js.TypeError "vehicle.option_codes.match is not a function")
      end
  end.

(** ** URL query strings *)

Module URLSearchParams.

(** The bytes of the UTF-8 encoding of a code unit below 256. *)
Definition utf8 (c : ascii) : list N :=
  let n := N_of_ascii c in
  if (n <? 128)%N then [n]
  else [(192 + n / 64)%N; (128 + n mod 64)%N].

Definition hex_digit (n : N) : ascii :=
  match String.get (N.to_nat n) "0123456789ABCDEF" with
  | Some c => c
  | None => "0"%char
  end.

(** Bytes left as they are by the application/x-www-form-urlencoded
    serializer: the ASCII letters and digits and [*], [-], [.], [_]. *)
Definition unreserved (b : N) : bool :=
  ((48 <=? b) && (b <=? 57) || (65 <=? b) && (b <=? 90)
   || (97 <=? b) && (b <=? 122)
   || (b =? 42) || (b =? 45) || (b =? 46) || (b =? 95))%N.

Definition encode_byte (b : N) : string :=
  if unreserved b then String (ascii_of_N b) ""
  else if (b =? 32)%N then "+"
  else String "%"%char (String (hex_digit (b / 16)) (String (hex_digit (b mod 16)) "")).

Fixpoint encode (s : string) : string :=
  match s with
  | EmptyString => ""
  | String c rest => String.concat "" (map encode_byte (utf8 c)) ++ encode rest
  end.

(** The list of name-value pairs held by the object. *)
Definition t : Type := list (string * string).

(** [new URLSearchParams(init)] for [null] and for a plain object: one
    pair per own property, the value converted with [ToString]. *)
Definition new (init : option object) : t :=
  match init with
  | None => []
  | Some fields => map (fun kv => (fst kv, Js.ToString (snd kv))) fields
  end.

(** The serializer: pairs are appended to the output, separated by [&]
    whenever the output built so far is not empty. *)
Fixpoint serialize (output : string) (pairs : t) : string :=
  match pairs with
  | [] => output
  | (name, value) :: rest =>
      let output := if (output =? "")%string then output else output ++ "&" in
      serialize (output ++ encode name ++ "=" ++ encode value) rest
  end.

Definition toString (pairs : t) : string := serialize "" pairs.

End URLSearchParams.

(** ** The world of the request gateway *)

(** The options object handed to the HTTP transport; [req_body] is [None]
    when the object has no [body] key. *)
Record RequestOptions : Type := mkRequest {
  req_method : string;
  req_url : string;
  req_headers : object;
  req_body : option value
}.

(** The fields of the transport's response object that the module reads. *)
Record response : Type := mkResponse {
  statusCode : Z;
  statusMessage : string
}.

(** What [console.log] received.  [RequestJSON r] stands for the text
    ["\nRequest: " + JSON.stringify(r)], [BodyJSON] and [ResponseJSON]
    likewise; [Shown v] is a value printed as it is. *)
Inductive line : Type :=
| Text (s : string)
| RequestJSON (r : RequestOptions)
| BodyJSON (v : value)
| ResponseJSON (r : response)
| Shown (v : value).

(** The module variables ([portalBaseURI], [logLevel]), the environment
    ([process.env.VIN], the clock read by [Date.now]) and the effects
    observed from outside, each in the order they happened: console lines,
    requests handed to the transport, invocations of the completion
    callback with their two arguments, and property writes to the caller's
    [options] object. *)
Record world : Type := mkWorld {
  portalBaseURI : string;
  logLevel : Z;
  env_VIN : value;
  clock : Z;
  console : list line;
  sent : list RequestOptions;
  calls : list (value * value);
  writes : list (string * value)
}.

Definition portal : string := "https://owner-api.teslamotors.com".

Definition API_LOG_ALWAYS : Z := 0.
Definition API_ERR_LEVEL : Z := 1.
Definition API_CALL_LEVEL : Z := 2.
Definition API_RETURN_LEVEL : Z := 3.
Definition API_BODY_LEVEL : Z := 4.
Definition API_REQUEST_LEVEL : Z := 5.
Definition API_RESPONSE_LEVEL : Z := 6.
Definition API_LOG_ALL : Z := 255.

(** A freshly loaded module with [TESLAJS_SERVER] and [TESLAJS_LOG] unset. *)
Definition initial_world (vin : value) (now : Z) : world :=
  {| portalBaseURI := portal; logLevel := 0; env_VIN := vin; clock := now;
     console := []; sent := []; calls := []; writes := [] |}.

Definition add_line (l : line) (w : world) : world :=
  {| portalBaseURI := portalBaseURI w; logLevel := logLevel w;
     env_VIN := env_VIN w; clock := clock w;
     console := console w ++ [l]; sent := sent w; calls := calls w;
     writes := writes w |}.

Definition add_sent (r : RequestOptions) (w : world) : world :=
  {| portalBaseURI := portalBaseURI w; logLevel := logLevel w;
     env_VIN := env_VIN w; clock := clock w;
     console := console w; sent := sent w ++ [r]; calls := calls w;
     writes := writes w |}.

Definition add_call (err data : value) (w : world) : world :=
  {| portalBaseURI := portalBaseURI w; logLevel := logLevel w;
     env_VIN := env_VIN w; clock := clock w;
     console := console w; sent := sent w; calls := calls w ++ [(err, data)];
     writes := writes w |}.

Definition add_write (key : string) (v : value) (w : world) : world :=
  {| portalBaseURI := portalBaseURI w; logLevel := logLevel w;
     env_VIN := env_VIN w; clock := clock w;
     console := console w; sent := sent w; calls := calls w;
     writes := writes w ++ [(key, v)] |}.

(** ** The monad of module code: state and exceptions *)

Definition M (A : Type) : Type := world -> result A * world.

Definition ret {A : Type} (a : A) : M A := fun w => (Ret a, w).

Definition throw {A : Type} (e : value) : M A := fun w => (Throw e, w).

Definition bind {A B : Type} (c : M A) (k : A -> M B) : M B :=
  fun w =>
    match c w with
    | (Ret a, w') => k a w'
    | (Throw e, w') => (Throw e, w')
    end.

(** [try { c } catch (e) { h e }]. *)
Definition try_catch {A : Type} (c : M A) (h : value -> M A) : M A :=
  fun w =>
    match c w with
    | (Ret a, w') => (Ret a, w')
    | (Throw e, w') => h e w'
    end.

Definition read {A : Type} (f : world -> A) : M A := fun w => (Ret (f w), w).

Declare Scope js_scope.
Delimit Scope js_scope with js.
Notation "x <- c ;; k" := (bind c (fun x => k))
  (at level 61, c at next level, right associativity) : js_scope.
Notation "c ;; k" := (bind c (fun _ => k))
  (at level 61, right associativity) : js_scope.
Local Open Scope js_scope.

(** [log]: adjustable console logging. *)
Definition log (level : Z) (str : line) : M unit :=
  fun w => if logLevel w <? level then (Ret tt, w) else (Ret tt, add_line str w).

Definition set_logLevel (level : Z) (w : world) : world :=
  {| portalBaseURI := portalBaseURI w; logLevel := level;
     env_VIN := env_VIN w; clock := clock w;
     console := console w; sent := sent w; calls := calls w;
     writes := writes w |}.

Definition set_portalBaseURI (uri : string) (w : world) : world :=
  {| portalBaseURI := uri; logLevel := logLevel w;
     env_VIN := env_VIN w; clock := clock w;
     console := console w; sent := sent w; calls := calls w;
     writes := writes w |}.

(** [setLogLevel] and [getLogLevel]. *)
Definition setLogLevel (level : Z) : M unit :=
  fun w => (Ret tt, set_logLevel level w).

Definition getLogLevel : M Z := read logLevel.

(** [setPortalBaseURI]: a falsy [uri] ([None] for [undefined], or the empty
    string) resets the base URI to the default servers. *)
Definition setPortalBaseURI (uri : option string) : M unit :=
  fun w =>
    match uri with
    | Some u =>
        if negb (Js.truthy (VStr u)) then (Ret tt, set_portalBaseURI portal w)
        else (Ret tt, set_portalBaseURI u w)
    | None => (Ret tt, set_portalBaseURI portal w)
    end.

Definition getPortalBaseURI : M string := read portalBaseURI.

(** The caller's completion callback, as the handler that calls it sees
    it: whether calling it with [(err, data)] returns ([None]) or throws
    ([Some e]).  What the callback's own code does to the world (printing,
    calling the module again) is not part of the model. *)
Definition nodeBack : Type := value -> value -> option value.

(** [function (err, data) { /* do nothing! */ }]. *)
Definition do_nothing : nodeBack := fun _ _ => None.

(** [callback || function (err, data) { }]. *)
Definition or_do_nothing (callback : option nodeBack) : nodeBack :=
  match callback with
  | Some f => f
  | None => do_nothing
  end.

(** Calling the callback: the invocation is recorded, then the callback
    returns or throws. *)
Definition invoke (callback : nodeBack) (err data : value) : M unit :=
  fun w =>
    match callback err data with
    | None => (Ret tt, add_call err data w)
    | Some e => (Throw e, add_call err data w)
    end.

(** The function handed to the transport, which calls it with
    [(error, response, body)] when the exchange is over; [response] is
    [None] when the transport passes [undefined]. *)
Definition handler : Type := value -> option response -> value -> M unit.

(** [request(req, handler)]: the request is handed to the transport and the
    call returns; the handler is what the transport will call back. *)
Definition request (req : RequestOptions) (h : handler) : M handler :=
  fun w => (Ret h, add_sent req w).

Definition nl : string := String (ascii_of_nat 10) "".

(** ** The request gateway *)

(** [get_command]: generic REST call for GET commands. *)
Definition get_command (options : value) (command : string)
    (callback : option nodeBack) : M handler :=
  log API_CALL_LEVEL (Text ("GET call: " ++ command ++ " start.")) ;;
  let callback := or_do_nothing callback in
  base <- read portalBaseURI ;;
  vin <- read env_VIN ;;
  let req :=
    {| req_method := "GET";
       req_url := base ++ command;
       req_headers := [("X-SSL-Client-S-CN", vin)];
       req_body := None |} in
  log API_REQUEST_LEVEL (RequestJSON req) ;;
  request req (fun error response body =>
    if Js.truthy error then
      log API_ERR_LEVEL (Shown error) ;;
      invoke callback error VNull
    else
      match response with
      | None => throw (Js.TypeError "Cannot read property 'statusCode' of undefined")
      | Some response =>
          if negb (statusCode response =? 200) then
            let str := "Error response: " ++ Js.number_to_string (Num (statusCode response)) in
            log API_ERR_LEVEL (Text str) ;;
            invoke callback (VStr str) VNull
          else
            log API_BODY_LEVEL (BodyJSON body) ;;
            log API_RESPONSE_LEVEL (ResponseJSON response) ;;
            try_catch
              (invoke callback VNull body)
              (fun e =>
                 log API_ERR_LEVEL (Text "Error parsing GET call response") ;;
                 invoke callback e VNull) ;;
            log API_RETURN_LEVEL (Text (nl ++ "GET request: " ++ command ++ " completed."))
      end).

(** [post_command]: generic REST call for commands; [body] is the JSON
    payload, [None] for [null]. *)
Definition post_command (options : value) (command : string)
    (body : option object) (callback : option nodeBack) : M handler :=
  log API_CALL_LEVEL (Text ("GET call: " ++ command ++ " start.")) ;;
  let callback := or_do_nothing callback in
  let u := URLSearchParams.toString (URLSearchParams.new body) in
  base <- read portalBaseURI ;;
  vin <- read env_VIN ;;
  let cmd :=
    {| req_method := "GET";
       req_url := base ++ command ++ "?" ++ u;
       req_headers := [("X-SSL-Client-S-CN", vin)];
       req_body := Some (match body with
                         | Some payload => VObj payload
                         | None => VNull
                         end) |} in
  log API_REQUEST_LEVEL (RequestJSON cmd) ;;
  request cmd (fun error response body =>
    if Js.truthy error then
      log API_ERR_LEVEL (Shown error) ;;
      invoke callback error VNull
    else
      match response with
      | None => throw (Js.TypeError "Cannot read property 'statusCode' of undefined")
      | Some response =>
          if negb (statusCode response =? 200) then
            let str := "Error response: " ++ Js.number_to_string (Num (statusCode response)) in
            log API_ERR_LEVEL (Text str) ;;
            invoke callback (VStr str) VNull
          else
            log API_BODY_LEVEL (BodyJSON body) ;;
            log API_RESPONSE_LEVEL (ResponseJSON response) ;;
            try_catch
              (invoke callback VNull body)
              (fun e =>
                 log API_ERR_LEVEL (Text "Error parsing GET call response") ;;
                 invoke callback e VNull) ;;
            log API_RETURN_LEVEL (Text (nl ++ "GET command: " ++ command ++ " completed."))
      end).

(** [body.id = body.id_s] in strict mode: reading a property of [undefined]
    or [null] throws, and so does writing a property of a primitive.  The
    extra property of an array (it has no [id_s], so the value written is
    [undefined]) is not represented. *)
Fixpoint set_field (fields : object) (key : string) (v : value) : object :=
  match fields with
  | [] => [(key, v)]
  | (k, x) :: rest =>
      if (k =? key)%string then (k, v) :: rest else (k, x) :: set_field rest key v
  end.

Definition copy_id (body : value) : M value :=
  match body with
  | VUndefined | VNull =>
      throw (Js.TypeError "Cannot read property 'id_s' of undefined")
  | VBool _ | VNum _ | VStr _ =>
      throw (Js.TypeError "Cannot create property 'id'")
  | VObj fields => ret (VObj (set_field fields "id" (Js.lookup fields "id_s")))
  | VArr _ | VError _ _ => ret body
  end.

(** [options.vehicleID = v] in strict mode, recorded as a write to the
    caller's object. *)
Definition set_vehicleID (options : value) (v : value) : M unit :=
  match options with
  | VUndefined | VNull =>
      throw (Js.TypeError "Cannot set property 'vehicleID' of undefined")
  | VBool _ | VNum _ | VStr _ =>
      throw (Js.TypeError "Cannot create property 'vehicleID'")
  | VArr _ | VObj _ | VError _ _ => fun w => (Ret tt, add_write "vehicleID" v w)
  end.

(** [vehicle]: vehicle information on the requested vehicle. *)
Definition vehicle (options : value) (callback : option nodeBack) : M handler :=
  log API_CALL_LEVEL (Text "TeslaJS.vehicle()") ;;
  let callback := or_do_nothing callback in
  base <- read portalBaseURI ;;
  vin <- read env_VIN ;;
  let req :=
    {| req_method := "GET";
       req_url := base ++ "vehicles";
       req_headers := [("X-SSL-Client-S-CN", vin)];
       req_body := None |} in
  log API_REQUEST_LEVEL (RequestJSON req) ;;
  request req (fun error response body =>
    if Js.truthy error then
      log API_ERR_LEVEL (Shown error) ;;
      invoke callback error VNull
    else
      match response with
      | None => throw (Js.TypeError "Cannot read property 'statusCode' of undefined")
      | Some response =>
          if negb (statusCode response =? 200) then
            invoke callback (VStr (statusMessage response)) VNull
          else
            log API_BODY_LEVEL (BodyJSON body) ;;
            log API_RESPONSE_LEVEL (ResponseJSON response) ;;
            try_catch
              (body <- copy_id body ;;
               set_vehicleID options (Js.get body "id") ;;
               invoke callback VNull body)
              (fun e =>
                 log API_ERR_LEVEL (Text "Error parsing vehicles response") ;;
                 invoke callback e VNull) ;;
            log API_RETURN_LEVEL (Text (nl ++ "GET request: " ++ "/vehicles" ++ " completed."))
      end).

(** [vehicles]: vehicle information on all vehicles. *)
Definition vehicles (options : value) (callback : option nodeBack) : M handler :=
  log API_CALL_LEVEL (Text "TeslaJS.vehicles()") ;;
  let callback := or_do_nothing callback in
  base <- read portalBaseURI ;;
  vin <- read env_VIN ;;
  let req :=
    {| req_method := "GET";
       req_url := base ++ "vehicle_data";
       req_headers := [("X-SSL-Client-S-CN", vin)];
       req_body := None |} in
  log API_REQUEST_LEVEL (RequestJSON req) ;;
  request req (fun error response body =>
    if Js.truthy error then
      log API_ERR_LEVEL (Shown error) ;;
      invoke callback error VNull
    else
      match response with
      | None => throw (Js.TypeError "Cannot read property 'statusCode' of undefined")
      | Some response =>
          if negb (statusCode response =? 200) then
            invoke callback (VStr (statusMessage response)) VNull
          else
            log API_BODY_LEVEL (BodyJSON body) ;;
            log API_RESPONSE_LEVEL (ResponseJSON response) ;;
            try_catch
              (invoke callback VNull body)
              (fun e =>
                 log API_ERR_LEVEL (Text "Error parsing vehicles response") ;;
                 invoke callback e VNull) ;;
            log API_RETURN_LEVEL (Text (nl ++ "GET request: " ++ "/vehicles" ++ " completed."))
      end).

(** ** The exported wrappers, in source order *)

Definition vehicleData (options : value) (callback : option nodeBack) : M handler :=
  get_command options "vehicle_data" callback.

Definition vehicleConfig (options : value) (callback : option nodeBack) : M handler :=
  get_command options "vehicle_config" callback.

Definition vehicleState (options : value) (callback : option nodeBack) : M handler :=
  get_command options "vehicle_state" callback.

Definition climateState (options : value) (callback : option nodeBack) : M handler :=
  get_command options "climate_state" callback.

Definition nearbyChargers (options : value) (callback : option nodeBack) : M handler :=
  get_command options "nearby_charging_sites" callback.

Definition driveState (options : value) (callback : option nodeBack) : M handler :=
  get_command options "drive_state" callback.

Definition chargeState (options : value) (callback : option nodeBack) : M handler :=
  get_command options "charge_state" callback.

Definition guiSettings (options : value) (callback : option nodeBack) : M handler :=
  get_command options "gui_settings" callback.

Definition mobileEnabled (options : value) (callback : option nodeBack) : M handler :=
  get_command options "mobile_enabled" callback.

Definition honkHorn (options : value) (callback : option nodeBack) : M handler :=
  post_command options "honk_horn" None callback.

Definition flashLights (options : value) (callback : option nodeBack) : M handler :=
  post_command options "flash_lights" None callback.

Definition startCharge (options : value) (callback : option nodeBack) : M handler :=
  post_command options "charge_start" None callback.

Definition stopCharge (options : value) (callback : option nodeBack) : M handler :=
  post_command options "charge_stop" None callback.

Definition openChargePort (options : value) (callback : option nodeBack) : M handler :=
  post_command options "charge_port_door_open" None callback.

Definition closeChargePort (options : value) (callback : option nodeBack) : M handler :=
  post_command options "charge_port_door_close" None callback.

Definition scheduleSoftwareUpdate (options offset : value)
    (callback : option nodeBack) : M handler :=
  post_command options "schedule_software_update" (Some [("offset_sec", offset)]) callback.

Definition cancelSoftwareUpdate (options : value) (callback : option nodeBack) : M handler :=
  post_command options "cancel_software_update" None callback.

(** [Date.now()]. *)
Definition Date_now : M value := read (fun w => VNum (Num (clock w))).

Definition navigationRequest (options subject text locale : value)
    (callback : option nodeBack) : M handler :=
  now <- Date_now ;;
  let req :=
    [ ("type", VStr "share_ext_content_raw");
      ("value", VObj [ ("android.intent.ACTION", VStr "android.intent.action.SEND");
                       ("android.intent.TYPE", VStr "text/plain");
                       ("android.intent.extra.SUBJECT", subject);
                       ("android.intent.extra.TEXT", text) ]);
      ("locale", locale);
      ("timestamp_ms", now) ] in
  post_command options "navigation_request" (Some req) callback.

Definition mediaTogglePlayback (options : value) (callback : option nodeBack) : M handler :=
  post_command options "media_toggle_playback" None callback.

Definition mediaPlayNext (options : value) (callback : option nodeBack) : M handler :=
  post_command options "media_next_track" None callback.

Definition mediaPlayPrevious (options : value) (callback : option nodeBack) : M handler :=
  post_command options "media_prev_track" None callback.

Definition mediaPlayNextFavorite (options : value) (callback : option nodeBack) : M handler :=
  post_command options "media_next_fav" None callback.

Definition mediaPlayPreviousFavorite (options : value) (callback : option nodeBack) : M handler :=
  post_command options "media_prev_fav" None callback.

Definition mediaVolumeUp (options : value) (callback : option nodeBack) : M handler :=
  post_command options "media_volume_up" None callback.

Definition mediaVolumeDown (options : value) (callback : option nodeBack) : M handler :=
  post_command options "media_volume_down" None callback.

Definition speedLimitActivate (options pin : value) (callback : option nodeBack) : M handler :=
  post_command options "speed_limit_activate" (Some [("pin", pin)]) callback.

Definition speedLimitDeactivate (options pin : value) (callback : option nodeBack) : M handler :=
  post_command options "speed_limit_deactivate" (Some [("pin", pin)]) callback.

Definition speedLimitClearPin (options pin : value) (callback : option nodeBack) : M handler :=
  post_command options "speed_limit_clear_pin" (Some [("pin", pin)]) callback.

Definition speedLimitSetLimit (options limit : value) (callback : option nodeBack) : M handler :=
  post_command options "speed_limit_set_limit" (Some [("limit_mph", limit)]) callback.

Definition setSentryMode (options onoff : value) (callback : option nodeBack) : M handler :=
  post_command options "set_sentry_mode" (Some [("on", onoff)]) callback.

Definition seatHeater (options heater level : value) (callback : option nodeBack) : M handler :=
  post_command options "remote_seat_heater_request"
    (Some [("heater", heater); ("level", level)]) callback.

Definition steeringHeater (options level : value) (callback : option nodeBack) : M handler :=
  post_command options "remote_steering_wheel_heater_request" (Some [("on", level)]) callback.

Definition maxDefrost (options onoff : value) (callback : option nodeBack) : M handler :=
  post_command options "set_preconditioning_max" (Some [("on", onoff)]) callback.

Definition windowControl (options command : value) (callback : option nodeBack) : M handler :=
  post_command options "window_control"
    (Some [("command", command); ("lat", VNum (Num 0)); ("lon", VNum (Num 0))]) callback.

(** Charge limit constants. *)
Definition CHARGE_STORAGE : number := Num 50.
Definition CHARGE_DAILY : number := Num 70.
Definition CHARGE_STANDARD : number := Num 90.
Definition CHARGE_RANGE : number := Num 100.

(** [setChargeLimit]: set the charge limit, in percent. *)
Definition setChargeLimit (options : value) (amt : number)
    (callback : option nodeBack) : M handler :=
  let amt := clamp amt CHARGE_STORAGE CHARGE_RANGE in
  post_command options "set_charge_limit" (Some [("percent", VNum amt)]) callback.

Definition chargeStandard (options : value) (callback : option nodeBack) : M handler :=
  post_command options "charge_standard" None callback.

Definition chargeMaxRange (options : value) (callback : option nodeBack) : M handler :=
  post_command options "charge_max_range" None callback.

Definition doorLock (options : value) (callback : option nodeBack) : M handler :=
  post_command options "door_lock" None callback.

Definition doorUnlock (options : value) (callback : option nodeBack) : M handler :=
  post_command options "door_unlock" None callback.

Definition climateStart (options : value) (callback : option nodeBack) : M handler :=
  post_command options "auto_conditioning_start" None callback.

Definition climateStop (options : value) (callback : option nodeBack) : M handler :=
  post_command options "auto_conditioning_stop" None callback.

Definition sunRoofControl (options state : value) (callback : option nodeBack) : M handler :=
  post_command options "sun_roof_control" (Some [("state", state)]) callback.

Definition sunRoofMove (options percent : value) (callback : option nodeBack) : M handler :=
  post_command options "sun_roof_control"
    (Some [("state", VStr "move"); ("percent", percent)]) callback.

(** Temperature limits, in degrees Celsius. *)
Definition MIN_TEMP : number := Num 15.
Definition MAX_TEMP : number := Num 28.

(** An argument the caller may leave out: [None] is [undefined]. *)
Definition optional (a : option number) : value :=
  match a with
  | Some n => VNum n
  | None => VUndefined
  end.

(** [setTemps]: set the driver and passenger climate temperatures. *)
Definition setTemps (options : value) (driver : number) (pass : option number)
    (callback : option nodeBack) : M handler :=
  let pass :=
    if negb (Js.truthy (optional pass)) then driver
    else match pass with
         | Some p => p
         | None => driver
         end in
  let driver := clamp driver MIN_TEMP MAX_TEMP in
  let pass := clamp pass MIN_TEMP MAX_TEMP in
  post_command options "set_temps"
    (Some [("driver_temp", VNum driver); ("passenger_temp", VNum pass)]) callback.

Definition remoteStart (options password : value) (callback : option nodeBack) : M handler :=
  post_command options "remote_start_drive" (Some [("password", password)]) callback.

Definition openTrunk (options which : value) (callback : option nodeBack) : M handler :=
  post_command options "actuate_trunk" (Some [("which_trunk", which)]) callback.

Definition wakeUp (options : value) (callback : option nodeBack) : M handler :=
  post_command options "wake_up" None callback.

Definition setValetMode (options onoff pin : value) (callback : option nodeBack) : M handler :=
  post_command options "set_valet_mode" (Some [("on", onoff); ("password", pin)]) callback.

Definition resetValetPin (options : value) (callback : option nodeBack) : M handler :=
  post_command options "reset_valet_pin" None callback.

Definition calendar (options : value) (entry : option object)
    (callback : option nodeBack) : M handler :=
  post_command options "upcoming_calendar_entries" entry callback.

Definition homelink (options lat long token : value) (callback : option nodeBack) : M handler :=
  post_command options "trigger_homelink"
    (Some [("lat", lat); ("long", long); ("token", token)]) callback.

(** ** The operations of the vehicle API

    One constructor per exported read or command operation, with the
    arguments the caller binds; [call] is the exported function applied to
    them.  The two generic entry points are operations as well. *)
Inductive operation : Type :=
| Vehicle | Vehicles
| GetCommand (command : string)
| PostCommand (command : string) (body : option object)
| VehicleData | VehicleConfig | VehicleState | ClimateState | NearbyChargers
| DriveState | ChargeState | GuiSettings | MobileEnabled
| HonkHorn | FlashLights | StartCharge | StopCharge
| OpenChargePort | CloseChargePort
| ScheduleSoftwareUpdate (offset : value) | CancelSoftwareUpdate
| NavigationRequest (subject text locale : value)
| MediaTogglePlayback | MediaPlayNext | MediaPlayPrevious
| MediaPlayNextFavorite | MediaPlayPreviousFavorite
| MediaVolumeUp | MediaVolumeDown
| SpeedLimitActivate (pin : value) | SpeedLimitDeactivate (pin : value)
| SpeedLimitClearPin (pin : value) | SpeedLimitSetLimit (limit : value)
| SetSentryMode (onoff : value)
| SeatHeater (heater level : value) | SteeringHeater (level : value)
| MaxDefrost (onoff : value) | WindowControl (command : value)
| SetChargeLimit (amt : number) | ChargeStandard | ChargeMaxRange
| DoorLock | DoorUnlock | ClimateStart | ClimateStop
| SunRoofControl (state : value) | SunRoofMove (percent : value)
| SetTemps (driver : number) (pass : option number)
| RemoteStart (password : value) | OpenTrunk (which : value)
| WakeUp | SetValetMode (onoff pin : value) | ResetValetPin
| Calendar (entry : option object)
| Homelink (lat long token : value).

Definition call (op : operation) (options : value) (callback : option nodeBack)
    : M handler :=
  match op with
  | Vehicle => vehicle options callback
  | Vehicles => vehicles options callback
  | GetCommand command => get_command options command callback
  | PostCommand command body => post_command options command body callback
  | VehicleData => vehicleData options callback
  | VehicleConfig => vehicleConfig options callback
  | VehicleState => vehicleState options callback
  | ClimateState => climateState options callback
  | NearbyChargers => nearbyChargers options callback
  | DriveState => driveState options callback
  | ChargeState => chargeState options callback
  | GuiSettings => guiSettings options callback
  | MobileEnabled => mobileEnabled options callback
  | HonkHorn => honkHorn options callback
  | FlashLights => flashLights options callback
  | StartCharge => startCharge options callback
  | StopCharge => stopCharge options callback
  | OpenChargePort => openChargePort options callback
  | CloseChargePort => closeChargePort options callback
  | ScheduleSoftwareUpdate offset => scheduleSoftwareUpdate options offset callback
  | CancelSoftwareUpdate => cancelSoftwareUpdate options callback
  | NavigationRequest subject text locale =>
      navigationRequest options subject text locale callback
  | MediaTogglePlayback => mediaTogglePlayback options callback
  | MediaPlayNext => mediaPlayNext options callback
  | MediaPlayPrevious => mediaPlayPrevious options callback
  | MediaPlayNextFavorite => mediaPlayNextFavorite options callback
  | MediaPlayPreviousFavorite => mediaPlayPreviousFavorite options callback
  | MediaVolumeUp => mediaVolumeUp options callback
  | MediaVolumeDown => mediaVolumeDown options callback
  | SpeedLimitActivate pin => speedLimitActivate options pin callback
  | SpeedLimitDeactivate pin => speedLimitDeactivate options pin callback
  | SpeedLimitClearPin pin => speedLimitClearPin options pin callback
  | SpeedLimitSetLimit limit => speedLimitSetLimit options limit callback
  | SetSentryMode onoff => setSentryMode options onoff callback
  | SeatHeater heater level => seatHeater options heater level callback
  | SteeringHeater level => steeringHeater options level callback
  | MaxDefrost onoff => maxDefrost options onoff callback
  | WindowControl command => windowControl options command callback
  | SetChargeLimit amt => setChargeLimit options amt callback
  | ChargeStandard => chargeStandard options callback
  | ChargeMaxRange => chargeMaxRange options callback
  | DoorLock => doorLock options callback
  | DoorUnlock => doorUnlock options callback
  | ClimateStart => climateStart options callback
  | ClimateStop => climateStop options callback
  | SunRoofControl state => sunRoofControl options state callback
  | SunRoofMove percent => sunRoofMove options percent callback
  | SetTemps driver pass => setTemps options driver pass callback
  | RemoteStart password => remoteStart options password callback
  | OpenTrunk which => openTrunk options which callback
  | WakeUp => wakeUp options callback
  | SetValetMode onoff pin => setValetMode options onoff pin callback
  | ResetValetPin => resetValetPin options callback
  | Calendar entry => calendar options entry callback
  | Homelink lat long token => homelink options lat long token callback
  end.

(** The error value a handler derives from a response whose status is not
    200: the status message for [vehicle] and [vehicles], a text carrying
    the status code for every other operation. *)
Definition status_error (op : operation) (r : response) : value :=
  match op with
  | Vehicle | Vehicles => VStr (statusMessage r)
  | _ => VStr ("Error response: " ++ Js.number_to_string (Num (statusCode r)))
  end.

(** What a call of the callback amounts to for the code around it. *)
Definition outcome (thrown : option value) : result unit :=
  match thrown with
  | None => Ret tt
  | Some e => Throw e
  end.

(** ** Auxiliary definitions for the statements *)

(** The record built by [vinDecode] from a non-empty identifier string. *)
Definition decoded (vin : string) : VehicleInfo :=
  {| carType :=
       if (Js.charAt vin 3 =? "S")%string then "Model S"
       else if (Js.charAt vin 3 =? "3")%string then "Model 3"
       else if (Js.charAt vin 3 =? "X")%string then "Model X"
       else if (Js.charAt vin 3 =? "Y")%string then "Model Y"
       else "Model S";
     awd := (Js.charAt vin 7 =? "2")%string || (Js.charAt vin 7 =? "4")%string
            || (Js.charAt vin 7 =? "B")%string;
     year := Js.sub (Js.add (Num 2010) (Js.charCodeAt vin 9)) (Num 65) |}.

(** The world after [log level str]. *)
Definition logged (level : Z) (str : line) (w : world) : world :=
  if logLevel w <? level then w else add_line str w.

(** What the handler of an operation does with the transport's answer, for
    a callback [callback] and an error value [error_of r] derived from a
    response [r] whose status is not 200:
    - a transport error goes to the callback, once, with a [null] body;
    - a status that is not 200 goes to the callback, once, as [error_of r]
      with a [null] body;
    - in both cases the handler ends as the callback does;
    - with the do-nothing callback the handler returns normally whatever
      the answer, provided the transport passes an error or a response. *)
Definition answers (callback : nodeBack) (error_of : response -> value)
    (h : handler) : Prop :=
  (forall error response body w,
     Js.truthy error = true ->
     exists w',
       h error response body w = (outcome (callback error VNull), w')
       /\ calls w' = (calls w ++ [(error, VNull)])%list
       /\ sent w' = sent w)
  /\ (forall error r body w,
        Js.truthy error = false -> statusCode r <> 200 ->
        exists w',
          h error (Some r) body w = (outcome (callback (error_of r) VNull), w')
          /\ calls w' = (calls w ++ [(error_of r, VNull)])%list
          /\ sent w' = sent w)
  /\ (forall error response body w,
        callback = do_nothing ->
        Js.truthy error = true \/ response <> None ->
        exists w', h error response body w = (Ret tt, w') /\ sent w' = sent w).

(** The call hands exactly one request to the transport and returns the
    handler. *)
Definition issues (c : M handler) (w : world) (callback : nodeBack)
    (error_of : response -> value) : Prop :=
  exists h w' req,
    c w = (Ret h, w')
    /\ sent w' = (sent w ++ [req])%list
    /\ calls w' = calls w
    /\ answers callback error_of h.

(** One pair of a query string: encoded name, [=], encoded value. *)
Definition pair_text (p : string * string) : string :=
  URLSearchParams.encode (fst p) ++ "=" ++ URLSearchParams.encode (snd p).

(** ** Further exported helpers *)

(** [new Error(message)]. *)
Definition Error (message : string) : value := VError "Error" message.

(** [getVin]: the vehicle VIN from vehicle JSON information. *)
Definition getVin (vehicle : value) : result value :=
  if negb (Js.truthy vehicle) then Throw (Error "invalid parameter")
  else if negb (Js.truthy (Js.get vehicle "vin")) then Throw (Error "invalid parameter")
  else Ret (Js.get vehicle "vin").

(** [s.substr(start)] for a start that is not negative: the characters of
    [s] from position [start] on, none when [s] is shorter. *)
Fixpoint substr (s : string) (start : nat) : string :=
  match start, s with
  | O, _ => s
  | S _, EmptyString => ""
  | S n, String _ rest => substr rest n
  end.

(** [getShortVin]: the short version of the vehicle VIN.  A truthy [vin]
    that is not a string has no [substr] method. *)
Definition getShortVin (vehicle : value) : result value :=
  if negb (Js.truthy vehicle) then Throw (Error "invalid parameter")
  else if negb (Js.truthy (Js.get vehicle "vin")) then Throw (Error "invalid parameter")
  else
    match Js.get vehicle "vin" with
    | VStr vin => Ret (VStr (substr vin 11))
    | _ => Throw (Js.TypeError "vehicle.vin.substr is not a function")
    end.

(** [a || b]. *)
Definition or_else (a b : value) : value := if Js.truthy a then a else b.

(** [makeCalendarEntry]: create a calendar entry; [new Date().getTime()]
    reads the clock. *)
Definition makeCalendarEntry
    (eventName location startTime endTime accountName phoneName : value) : M object :=
  now <- Date_now ;;
  ret
    [ ("calendar_data",
       VObj
         [ ("access_disabled", VBool false);
           ("calendars",
            VArr
              [ VObj
                  [ ("color", VStr "ff9a9cff");
                    ("events",
                     VArr
                       [ VObj
                           [ ("allday", VBool false);
                             ("color", VStr "ff9a9cff");
                             ("end", or_else endTime now);
                             ("start", or_else startTime now);
                             ("cancelled", VBool false);
                             ("tentative", VBool false);
                             ("location", or_else location (VStr ""));
                             ("name", or_else eventName (VStr "Event name"));
                             ("organizer", VStr "") ] ]);
                    ("name", or_else accountName (VStr "")) ] ]);
           ("phone_name", phoneName);
           ("uuid", VStr "333239059961778") ]) ].

(** ** Token refresh *)

(** The client identity sent with a token refresh. *)
Definition c_id : string :=
  "e4a9949fcfa04068f59abb5a658f2bac0a3428e4652315490b659d5ab3f35a9e".
Definition c_sec : string :=
  "c75f14bbadc8bee3a7594412c31416f8300256d7668ea7e6e7f06727bfb9d220".

(** The transport's response object as a value, through the fields the
    model has; [undefined] when the transport passes none. *)
Definition response_value (response : option response) : value :=
  match response with
  | Some r => VObj [ ("statusCode", VNum (Num (statusCode r)));
                     ("statusMessage", VStr (statusMessage r)) ]
  | None => VUndefined
  end.

Section Auth.

(** [JSON.stringify], which the module gets from the platform. *)
Variable JSON_stringify : value -> value.

(** [refreshToken]: retrieve new tokens using a refresh token.  Without a
    refresh token the callback gets an error text and no request is made
    ([None]).  The handler builds the callback's second argument before it
    calls it, and reading [body.access_token] throws when the body is
    [undefined] or [null]. *)
Definition refreshToken (refresh_token : value) (callback : option nodeBack)
    : M (option handler) :=
  log API_CALL_LEVEL (Text "TeslaJS.refreshToken()") ;;
  let callback := or_do_nothing callback in
  if negb (Js.truthy refresh_token) then
    invoke callback (VStr "refreshToken() requires a refresh_token") VNull ;;
    ret None
  else
    base <- read portalBaseURI ;;
    let req :=
      {| req_method := "GET";
         req_url := base ++ "/oauth/token";
         req_headers := [];
         req_body :=
           Some (VObj [ ("grant_type", VStr "refresh_token");
                        ("client_id", VStr c_id);
                        ("client_secret", VStr c_sec);
                        ("refresh_token", refresh_token) ]) |} in
    log API_REQUEST_LEVEL (RequestJSON req) ;;
    h <- request req (fun error response body =>
      log API_RESPONSE_LEVEL (Text (nl ++ "Response: " ++ Js.ToString body)) ;;
      match body with
      | VUndefined | VNull =>
          throw (Js.TypeError "Cannot read property 'access_token' of undefined")
      | _ =>
          invoke callback error
            (VObj [ ("error", error);
                    ("response", response_value response);
                    ("body", JSON_stringify body);
                    ("authToken", Js.get body "access_token");
                    ("refreshToken", Js.get body "refresh_token") ])
      end ;;
      log API_RETURN_LEVEL (Text "TeslaJS.refreshToken() completed.")) ;;
    ret (Some h).

End Auth.

(** ** Auxiliary definitions for the further statements *)

(** The values whose text [Js.ToString] gives as JavaScript prints it: a
    number that is [NaN] or a safe integer, an object without a [toString]
    property of its own, an array of such values, and every other value. *)
Fixpoint prints (v : value) : bool :=
  match v with
  | VNum (Num z) => Z.abs z <=? 9007199254740991
  | VArr items =>
      (fix all (l : list value) : bool :=
         match l with
         | [] => true
         | x :: rest => prints x && all rest
         end) items
  | VObj fields => negb (existsb (fun kv => (fst kv =? "toString")%string) fields)
  | _ => true
  end.


(** A computation keeps an invariant of the world. *)
Definition keeps {A : Type} (I : world -> Prop) (c : M A) : Prop :=
  forall w, I w -> I (snd (c w)).

(** Every character of [s] satisfies [p]. *)
Fixpoint all_chars (p : ascii -> bool) (s : string) : bool :=
  match s with
  | EmptyString => true
  | String c rest => p c && all_chars p rest
  end.

(** The characters an encoded name or value is made of: the unreserved
    ones, [+] and [%]. *)
Definition query_safe (c : ascii) : bool :=
  URLSearchParams.unreserved (N_of_ascii c)
  || (N_of_ascii c =? 43)%N || (N_of_ascii c =? 37)%N.

(** The values a property can be written to in strict mode: objects,
    arrays and error objects, not [undefined], [null] or a primitive. *)
Definition has_properties (v : value) : bool :=
  match v with
  | VArr _ | VObj _ | VError _ _ => true
  | _ => false
  end.

(** The handler of a call is made of logging above level 0, invocations of
    the callback and, for [vehicle], the write to the options: it keeps
    whatever those keep. *)
Definition handler_keeps (I : world -> Prop) (c : M handler) (w : world) : Prop :=
  exists h w1, c w = (Ret h, w1) /\ forall error response body, keeps I (h error response body).

(** What the handler does with a 200 response: the body goes to the
    callback; if the callback throws, the [catch] clause calls it a second
    time, with what it threw as error. *)
Definition delivers (callback : nodeBack) (h : handler) : Prop :=
  forall error r body w,
    Js.truthy error = false -> statusCode r = 200 ->
    (callback VNull body = None ->
     exists w',
       h error (Some r) body w = (Ret tt, w')
       /\ calls w' = (calls w ++ [(VNull, body)])%list)
    /\ (forall e,
          callback VNull body = Some e ->
          exists w',
            h error (Some r) body w = (outcome (callback e VNull), w')
            /\ calls w' = (calls w ++ [(VNull, body); (e, VNull)])%list).

Definition call_delivers (c : M handler) (w : world) (callback : nodeBack) : Prop :=
  exists h w1, c w = (Ret h, w1) /\ delivers callback h.

(** The handler throws when the transport passes neither an error nor a
    response. *)
Definition needs_response (h : handler) : Prop :=
  forall error body w,
    Js.truthy error = false ->
    h error None body w
    = (Throw (Js.TypeError "Cannot read property 'statusCode' of undefined"), w).

Definition call_needs_response (c : M handler) (w : world) : Prop :=
  exists h w1, c w = (Ret h, w1) /\ needs_response h.

(** The characters of a query string: those of the encoded names and
    values, and the separators [&] and [=]. *)
Definition query_char (c : ascii) : bool :=
  query_safe c || Ascii.eqb c "&" || Ascii.eqb c "=".

(** The base URI in force after [setPortalBaseURI uri]. *)
Definition effective_base (uri : option string) : string :=
  match uri with
  | Some u => if (u =? "")%string then portal else u
  | None => portal
  end.

(** * Properties *)

(** ** Evaluations on concrete inputs *)

Example vinDecode_model3 :
  vinDecode (VObj [("vin", VStr "5YJ3E1EB7JF000001")])
  = Ret {| carType := "Model 3"; awd := true; year := Num 2019 |}.
Proof. reflexivity. Qed.

Example number_to_string_neg : Js.number_to_string (Num (-15)) = "-15".
Proof. reflexivity. Qed.

Example number_to_string_zero : Js.number_to_string (Num 0) = "0".
Proof. reflexivity. Qed.

Example ToString_array :
  Js.ToString (VArr [VNum (Num 1); VNull; VStr "a"; VArr [VBool true]]) = "1,,a,true".
Proof. reflexivity. Qed.

Example getPaintColor_pearl :
  getPaintColor (VObj [("option_codes", VStr "MS04,RENA,PPSW,COUS")])
  = Ret (VStr "pearl white").
Proof. reflexivity. Qed.

Example getPaintColor_default :
  getPaintColor (VObj [("option_codes", VStr "MS04,RENA,COUS")]) = Ret (VStr "black").
Proof. reflexivity. Qed.

Example toString_temps :
  URLSearchParams.toString
    (URLSearchParams.new (Some [("driver_temp", VNum (Num 21)); ("note", VStr "a b&c/~*")]))
  = "driver_temp=21&note=a+b%26c%2F%7E*".
Proof. reflexivity. Qed.

Example setChargeLimit_30 :
  sent (snd (setChargeLimit VUndefined (Num 30) None (initial_world VUndefined 0)))
  = [ {| req_method := "GET";
         req_url := "https://owner-api.teslamotors.comset_charge_limit?percent=50";
         req_headers := [("X-SSL-Client-S-CN", VUndefined)];
         req_body := Some (VObj [("percent", VNum (Num 50))]) |} ].
Proof. reflexivity. Qed.

Example setTemps_no_passenger :
  map req_url (sent (snd (setTemps VUndefined (Num 30) None None (initial_world VUndefined 0))))
  = [ "https://owner-api.teslamotors.comset_temps?driver_temp=28&passenger_temp=28" ].
Proof. reflexivity. Qed.

Example vehicleData_404 :
  match vehicleData VUndefined None (initial_world VUndefined 0) with
  | (Ret h, w) =>
      let answer := h VNull (Some (mkResponse 404 "Not Found")) VUndefined w in
      fst answer = Ret tt
      /\ calls (snd answer) = [(VStr "Error response: 404", VNull)]
  | (Throw _, _) => False
  end.
Proof. split; reflexivity. Qed.

(** A callback that throws what it is given as error. *)
Example honkHorn_500_throwing_callback :
  match honkHorn VUndefined
          (Some (fun err _ => if Js.truthy err then Some err else None))
          (initial_world VUndefined 0) with
  | (Ret h, w) =>
      let answer := h VNull (Some (mkResponse 500 "Internal Server Error")) VNull w in
      fst answer = Throw (VStr "Error response: 500")
      /\ calls (snd answer) = [(VStr "Error response: 500", VNull)]
  | (Throw _, _) => False
  end.
Proof. split; reflexivity. Qed.

Example vehicle_200_sets_vehicleID :
  match vehicle (VObj []) None (initial_world VUndefined 0) with
  | (Ret h, w) =>
      let answer :=
        h VNull (Some (mkResponse 200 "OK")) (VObj [("id_s", VStr "123")]) w in
      fst answer = Ret tt
      /\ writes (snd answer) = [("vehicleID", VStr "123")]
      /\ calls (snd answer)
         = [(VNull, VObj [("id_s", VStr "123"); ("id", VStr "123")])]
  | (Throw _, _) => False
  end.
Proof. repeat split; reflexivity. Qed.

Example setPortalBaseURI_then_flashLights :
  map req_url
    (sent (snd ((setPortalBaseURI (Some "http://127.0.0.1:3000/") ;;
                 flashLights VUndefined None) (initial_world VUndefined 0))))
  = ["http://127.0.0.1:3000/flash_lights?"].
Proof. reflexivity. Qed.

(** ** The identifier decoder *)

Lemma get_string_object (v : value) (key s : string) :
  Js.get v key = VStr s -> exists fields, v = VObj fields.
Proof.
  destruct v; simpl; try discriminate.
  intros _. now exists fields.
Qed.

Lemma truthy_nonempty (s : string) : s <> "" -> Js.truthy (VStr s) = true.
Proof.
  intros Hs. simpl. destruct (String.eqb_spec s ""); [contradiction | reflexivity].
Qed.

Lemma vinDecode_string (vehicle : value) (vin : string) :
  Js.get vehicle "vin" = VStr vin -> vin <> "" ->
  vinDecode vehicle = Ret (decoded vin).
Proof.
  intros Hget Hne.
  destruct (get_string_object _ _ _ Hget) as [fields ->].
  unfold vinDecode. rewrite Hget, (truthy_nonempty _ Hne). simpl.
  unfold decoded, set_awd, set_carType, set_year.
  destruct (Js.charAt vin 3 =? "S")%string; [|
  destruct (Js.charAt vin 3 =? "3")%string; [|
  destruct (Js.charAt vin 3 =? "X")%string; [|
  destruct (Js.charAt vin 3 =? "Y")%string]]];
  destruct ((Js.charAt vin 7 =? "2")%string || (Js.charAt vin 7 =? "4")%string
            || (Js.charAt vin 7 =? "B")%string); reflexivity.
Qed.

Lemma vinDecode_empty (vehicle : value) :
  Js.get vehicle "vin" = VStr "" -> vinDecode vehicle = Ret default_info.
Proof.
  intros Hget. unfold vinDecode. rewrite Hget. simpl.
  destruct (Js.truthy vehicle); reflexivity.
Qed.

Lemma charAt_single (s : string) (i : nat) (c : ascii) :
  (Js.charAt s i =? String c "")%string = true <-> String.get i s = Some c.
Proof.
  unfold Js.charAt. destruct (String.get i s) as [d|].
  - rewrite String.eqb_eq. split; intros H; inversion H; reflexivity.
  - simpl. split; discriminate.
Qed.

Lemma charAt_single_false (s : string) (i : nat) (c : ascii) :
  (Js.charAt s i =? String c "")%string = false <-> String.get i s <> Some c.
Proof.
  rewrite <- charAt_single. destruct (Js.charAt s i =? String c "")%string; intuition congruence.
Qed.

(** C4.  When the vehicle identifier is absent -- the vehicle is [undefined]
    or [null] (or any falsy value), or its [vin] property is missing (or
    falsy) -- [vinDecode] returns normally, and what it returns is exactly
    the default record: Model S, no all-wheel drive, year 2012. *)
Theorem vinDecode_absent_identifier (vehicle : value) :
  Js.truthy vehicle = false \/ Js.truthy (Js.get vehicle "vin") = false ->
  vinDecode vehicle = Ret {| carType := ModelS; awd := false; year := Num 2012 |}.
Proof.
  intros [H | H]; unfold vinDecode; rewrite H; simpl.
  - reflexivity.
  - destruct (Js.truthy vehicle); reflexivity.
Qed.

Lemma vinDecode_absent_identifier_witness :
  (Js.truthy (VObj [("id", VNum (Num 7))]) = false
   \/ Js.truthy (Js.get (VObj [("id", VNum (Num 7))]) "vin") = false)
  /\ vinDecode (VObj [("id", VNum (Num 7))])
     = Ret {| carType := ModelS; awd := false; year := Num 2012 |}.
Proof.
  split.
  - right. reflexivity.
  - apply (vinDecode_absent_identifier (VObj [("id", VNum (Num 7))])).
    right. reflexivity.
Defined.

(** C5.  For an identifier string with a character [c] at position 9,
    [vinDecode] returns a record whose year is 2010 plus the difference of
    the character codes of [c] and of ['A'], whatever the character is; so
    ['A'] gives 2010 and ['L'] gives 2021. *)
Theorem vinDecode_year (vehicle : value) (vin : string) (c : ascii) :
  Js.get vehicle "vin" = VStr vin ->
  String.get 9 vin = Some c ->
  exists info,
    vinDecode vehicle = Ret info
    /\ year info = Num (2010 + (Z.of_N (N_of_ascii c) - Z.of_N (N_of_ascii "A")))
    /\ (c = "A"%char -> year info = Num 2010)
    /\ (c = "L"%char -> year info = Num 2021).
Proof.
  intros Hget H9.
  assert (Hne : vin <> "") by (intros ->; discriminate).
  exists (decoded vin). split; [now apply vinDecode_string|].
  assert (Hy : year (decoded vin)
               = Num (2010 + (Z.of_N (N_of_ascii c) - Z.of_N (N_of_ascii "A")))).
  { unfold decoded, year, Js.charCodeAt. rewrite H9.
    cbv [Js.sub Js.add]. f_equal.
    change (Z.of_N (N_of_ascii "A")) with 65. lia. }
  split; [exact Hy|].
  split; intros ->; rewrite Hy; reflexivity.
Qed.

Lemma vinDecode_year_witness :
  Js.get (VObj [("vin", VStr "5YJSA1E26LF000001")]) "vin" = VStr "5YJSA1E26LF000001"
  /\ String.get 9 "5YJSA1E26LF000001" = Some "L"%char
  /\ exists info,
       vinDecode (VObj [("vin", VStr "5YJSA1E26LF000001")]) = Ret info
       /\ year info = Num (2010 + (Z.of_N (N_of_ascii "L") - Z.of_N (N_of_ascii "A")))
       /\ ("L"%char = "A"%char -> year info = Num 2010)
       /\ ("L"%char = "L"%char -> year info = Num 2021).
Proof.
  split; [reflexivity|]. split; [reflexivity|].
  apply (vinDecode_year (VObj [("vin", VStr "5YJSA1E26LF000001")])
                        "5YJSA1E26LF000001" "L"%char); reflexivity.
Defined.

Lemma vinDecode_total (vehicle : value) (vin : string) :
  Js.get vehicle "vin" = VStr vin ->
  vinDecode vehicle = Ret (if (vin =? "")%string then default_info else decoded vin).
Proof.
  intros Hget. destruct (String.eqb_spec vin "") as [-> | Hne].
  - now apply vinDecode_empty.
  - now apply vinDecode_string.
Qed.

Lemma decoded_carType (vin : string) :
  carType (if (vin =? "")%string then default_info else decoded vin)
  = carType (decoded vin).
Proof. destruct vin; reflexivity. Qed.

Lemma decoded_awd (vin : string) :
  awd (if (vin =? "")%string then default_info else decoded vin) = awd (decoded vin).
Proof. destruct vin; reflexivity. Qed.

(** C6.  For every identifier string, the decoded model family depends on
    the character at position 3 alone: ['S'] gives Model S, ['3'] Model 3,
    ['X'] Model X, ['Y'] Model Y, and any other character, or none, leaves
    the default Model S. *)
Theorem vinDecode_family (vehicle : value) (vin : string) :
  Js.get vehicle "vin" = VStr vin ->
  exists info,
    vinDecode vehicle = Ret info
    /\ (String.get 3 vin = Some "S"%char -> carType info = ModelS)
    /\ (String.get 3 vin = Some "3"%char -> carType info = Model3)
    /\ (String.get 3 vin = Some "X"%char -> carType info = ModelX)
    /\ (String.get 3 vin = Some "Y"%char -> carType info = ModelY)
    /\ (String.get 3 vin <> Some "S"%char -> String.get 3 vin <> Some "3"%char ->
        String.get 3 vin <> Some "X"%char -> String.get 3 vin <> Some "Y"%char ->
        carType info = ModelS).
Proof.
  intros Hget. eexists. split; [exact (vinDecode_total _ _ Hget)|].
  rewrite decoded_carType. unfold decoded, carType.
  repeat split.
  - intros H. unfold Js.charAt. rewrite H. reflexivity.
  - intros H. unfold Js.charAt. rewrite H. reflexivity.
  - intros H. unfold Js.charAt. rewrite H. reflexivity.
  - intros H. unfold Js.charAt. rewrite H. reflexivity.
  - intros HS H3 HX HY.
    apply charAt_single_false in HS, H3, HX, HY.
    now rewrite HS, H3, HX, HY.
Qed.

Lemma vinDecode_family_witness :
  Js.get (VObj [("vin", VStr "5YJXCAE40GF000001")]) "vin" = VStr "5YJXCAE40GF000001"
  /\ exists info,
       vinDecode (VObj [("vin", VStr "5YJXCAE40GF000001")]) = Ret info
       /\ (String.get 3 "5YJXCAE40GF000001" = Some "S"%char -> carType info = ModelS)
       /\ (String.get 3 "5YJXCAE40GF000001" = Some "3"%char -> carType info = Model3)
       /\ (String.get 3 "5YJXCAE40GF000001" = Some "X"%char -> carType info = ModelX)
       /\ (String.get 3 "5YJXCAE40GF000001" = Some "Y"%char -> carType info = ModelY)
       /\ (String.get 3 "5YJXCAE40GF000001" <> Some "S"%char ->
           String.get 3 "5YJXCAE40GF000001" <> Some "3"%char ->
           String.get 3 "5YJXCAE40GF000001" <> Some "X"%char ->
           String.get 3 "5YJXCAE40GF000001" <> Some "Y"%char ->
           carType info = ModelS).
Proof.
  split; [reflexivity|].
  apply (vinDecode_family (VObj [("vin", VStr "5YJXCAE40GF000001")])
                          "5YJXCAE40GF000001").
  reflexivity.
Defined.

(** C7.  For every identifier string, the decoded all-wheel-drive flag is
    true exactly when the character at position 7 is ['2'], ['4'] or ['B'];
    for any other character, or none, it is false. *)
Theorem vinDecode_awd (vehicle : value) (vin : string) :
  Js.get vehicle "vin" = VStr vin ->
  exists info,
    vinDecode vehicle = Ret info
    /\ (awd info = true <->
        String.get 7 vin = Some "2"%char \/ String.get 7 vin = Some "4"%char
        \/ String.get 7 vin = Some "B"%char).
Proof.
  intros Hget. eexists. split; [exact (vinDecode_total _ _ Hget)|].
  rewrite decoded_awd. unfold decoded, awd.
  rewrite !Bool.orb_true_iff, !charAt_single. tauto.
Qed.

Lemma vinDecode_awd_witness :
  Js.get (VObj [("vin", VStr "5YJSA1E26LF000001")]) "vin" = VStr "5YJSA1E26LF000001"
  /\ exists info,
       vinDecode (VObj [("vin", VStr "5YJSA1E26LF000001")]) = Ret info
       /\ (awd info = true <->
           String.get 7 "5YJSA1E26LF000001" = Some "2"%char
           \/ String.get 7 "5YJSA1E26LF000001" = Some "4"%char
           \/ String.get 7 "5YJSA1E26LF000001" = Some "B"%char).
Proof.
  split; [reflexivity|].
  apply (vinDecode_awd (VObj [("vin", VStr "5YJSA1E26LF000001")])
                       "5YJSA1E26LF000001").
  reflexivity.
Defined.

(** ** The paint colour lookup *)

Module StringFacts.

Lemma app_assoc (a b c : string) : (a ++ b) ++ c = a ++ (b ++ c).
Proof. induction a as [|x a IH]; simpl; [reflexivity | now rewrite IH]. Qed.

Lemma app_nil_r (a : string) : a ++ "" = a.
Proof. induction a as [|x a IH]; simpl; [reflexivity | now rewrite IH]. Qed.

Lemma length_app (a b : string) :
  String.length (a ++ b) = (String.length a + String.length b)%nat.
Proof. induction a as [|x a IH]; simpl; [reflexivity | now rewrite IH]. Qed.

Lemma prefix_app (a s : string) :
  String.prefix a s = true <-> exists post, s = a ++ post.
Proof.
  revert s. induction a as [|x a IH]; intros s; simpl.
  - destruct s; split; eauto.
  - destruct s as [|y s]; simpl.
    + split; [discriminate | intros [post H]; discriminate].
    + destruct (Ascii.ascii_dec x y) as [-> | Hxy].
      * rewrite IH. split; intros [post H]; exists post; congruence.
      * split; [discriminate | intros [post H]; congruence].
Qed.

(** Two splits of one string at the same position are the same split. *)
Lemma app_inv_length (a b a' b' : string) :
  a ++ b = a' ++ b' -> String.length a = String.length a' -> a = a' /\ b = b'.
Proof.
  revert a'. induction a as [|x a IH]; intros [|y a']; simpl; try discriminate.
  - auto.
  - intros H Hlen. injection H as -> H. injection Hlen as Hlen.
    destruct (IH _ H Hlen) as [-> ->]. auto.
Qed.

End StringFacts.

Module RegexFacts.

Lemma match_here_Some (alternatives : list string) (s m : string) :
  Regex.match_here alternatives s = Some m ->
  In m alternatives /\ String.prefix m s = true.
Proof.
  induction alternatives as [|a rest IH]; simpl; [discriminate|].
  destruct (String.prefix a s) eqn:Ha.
  - intros [= <-]. auto.
  - intros H. destruct (IH H). auto.
Qed.

Lemma match_here_None (alternatives : list string) (s : string) :
  Regex.match_here alternatives s = None ->
  forall a, In a alternatives -> String.prefix a s = false.
Proof.
  induction alternatives as [|a rest IH]; simpl; [contradiction|].
  destruct (String.prefix a s) eqn:Ha; [discriminate|].
  intros H b [<- | Hb]; auto.
Qed.

(** A match is an occurrence of an alternative, and no alternative occurs
    further to the left. *)
Lemma exec_Some (alternatives : list string) (s m : string) :
  Regex.exec alternatives s = Some m ->
  exists pre post,
    s = pre ++ m ++ post /\ In m alternatives
    /\ forall a pre' post',
         In a alternatives -> s = pre' ++ a ++ post' ->
         (String.length pre <= String.length pre')%nat.
Proof.
  induction s as [|c s IH]; simpl.
  - destruct (Regex.match_here alternatives "") as [m'|] eqn:Hm; [|discriminate].
    intros [= ->]. destruct (match_here_Some _ _ _ Hm) as [Hin Hp].
    apply StringFacts.prefix_app in Hp as [post Hp].
    exists "", post. simpl. repeat split; auto. intros. lia.
  - destruct (Regex.match_here alternatives (String c s)) as [m'|] eqn:Hm.
    + intros [= ->]. destruct (match_here_Some _ _ _ Hm) as [Hin Hp].
      apply StringFacts.prefix_app in Hp as [post Hp].
      exists "", post. simpl. repeat split; auto. intros. lia.
    + intros H. destruct (IH H) as (pre & post & Hs & Hin & Hleft).
      exists (String c pre), post. simpl. rewrite <- Hs.
      repeat split; auto.
      intros a [|c' pre'] post' Ha Heq; simpl in Heq.
      * pose proof (match_here_None _ _ Hm a Ha) as Hp.
        assert (String.prefix a (String c s) = true)
          by (apply StringFacts.prefix_app; eauto).
        congruence.
      * injection Heq as _ Heq. simpl. apply le_n_S. eauto.
Qed.

Lemma exec_None (alternatives : list string) (s : string) :
  Regex.exec alternatives s = None ->
  forall a pre post, In a alternatives -> s <> pre ++ a ++ post.
Proof.
  induction s as [|c s IH]; simpl;
    destruct (Regex.match_here alternatives _) eqn:Hm; try discriminate;
    intros H a [|c' pre] post Ha Heq; simpl in Heq.
  - pose proof (match_here_None _ _ Hm a Ha) as Hp.
    assert (String.prefix a "" = true) by (apply StringFacts.prefix_app; eauto).
    congruence.
  - discriminate.
  - pose proof (match_here_None _ _ Hm a Ha) as Hp.
    assert (String.prefix a (String c s) = true)
      by (apply StringFacts.prefix_app; eauto).
    congruence.
  - injection Heq as _ Heq. exact (IH H a pre post Ha Heq).
Qed.

End RegexFacts.

Lemma colors_entry (code name : string) :
  In (code, VStr name) colors ->
  Js.lookup colors code = VStr name /\ Js.truthy (VStr name) = true
  /\ In code paint_alternatives.
Proof.
  unfold colors. intros H.
  repeat (destruct H as [H | H];
          [injection H as <- <-; repeat split; try reflexivity; simpl; tauto|]).
  contradiction.
Qed.

Lemma paint_alternatives_length (code : string) :
  In code paint_alternatives -> String.length code = 4%nat.
Proof.
  unfold paint_alternatives. intros H.
  repeat (destruct H as [<- | H]; [reflexivity|]). contradiction.
Qed.

Lemma getPaintColor_string (vehicle : value) (option_codes : string) :
  Js.get vehicle "option_codes" = VStr option_codes ->
  getPaintColor vehicle =
  Ret (match Regex.exec paint_alternatives option_codes with
       | Some m => if Js.truthy (Js.lookup colors m) then Js.lookup colors m
                   else VStr "black"
       | None => VStr "black"
       end).
Proof.
  intros Hget. destruct (get_string_object _ _ _ Hget) as [fields ->].
  unfold getPaintColor. rewrite Hget.
  destruct (Regex.exec paint_alternatives option_codes); reflexivity.
Qed.

(** The match found by the scan is the code that occurs leftmost. *)
Lemma exec_leftmost (s code pre post : string) :
  In code paint_alternatives ->
  s = pre ++ code ++ post ->
  (forall code' pre' post',
     In code' paint_alternatives -> s = pre' ++ code' ++ post' ->
     (String.length pre <= String.length pre')%nat) ->
  Regex.exec paint_alternatives s = Some code.
Proof.
  intros Hin Hs Hleft.
  destruct (Regex.exec paint_alternatives s) as [m|] eqn:E.
  - destruct (RegexFacts.exec_Some _ _ _ E) as (pre' & post' & Hs' & Hin' & Hleft').
    pose proof (Hleft _ _ _ Hin' Hs') as H1.
    pose proof (Hleft' _ _ _ Hin Hs) as H2.
    rewrite Hs in Hs'.
    destruct (StringFacts.app_inv_length _ _ _ _ Hs') as [_ Hrest]; [lia|].
    destruct (StringFacts.app_inv_length _ _ _ _ Hrest) as [-> _]; [|reflexivity].
    now rewrite !paint_alternatives_length.
  - exfalso. exact (RegexFacts.exec_None _ _ E _ _ _ Hin Hs).
Qed.

(** C8, as the code has it.  The lookup table has fifteen entries, one per
    alternative of the scan.  For every option-code string the result is the
    name of the recognised code that occurs leftmost in it; so a string in
    which [PPSW] is the leftmost recognised code yields "pearl white", and a
    string in which no recognised code occurs yields the default "black". *)
Theorem getPaintColor_first_match (vehicle : value) (option_codes : string) :
  Js.get vehicle "option_codes" = VStr option_codes ->
  List.length colors = 15%nat
  /\ map fst colors = paint_alternatives
  /\ (exists name, getPaintColor vehicle = Ret (VStr name))
  /\ (forall code name pre post,
        In (code, VStr name) colors ->
        option_codes = pre ++ code ++ post ->
        (forall code' pre' post',
           In code' paint_alternatives -> option_codes = pre' ++ code' ++ post' ->
           (String.length pre <= String.length pre')%nat) ->
        getPaintColor vehicle = Ret (VStr name))
  /\ (forall pre post,
        option_codes = pre ++ "PPSW" ++ post ->
        (forall code' pre' post',
           In code' paint_alternatives -> option_codes = pre' ++ code' ++ post' ->
           (String.length pre <= String.length pre')%nat) ->
        getPaintColor vehicle = Ret (VStr "pearl white"))
  /\ ((forall code pre post,
         In code paint_alternatives -> option_codes <> pre ++ code ++ post) ->
      getPaintColor vehicle = Ret (VStr "black")).
Proof.
  intros Hget. rewrite (getPaintColor_string _ _ Hget).
  assert (Hfirst : forall code name pre post,
            In (code, VStr name) colors ->
            option_codes = pre ++ code ++ post ->
            (forall code' pre' post',
               In code' paint_alternatives -> option_codes = pre' ++ code' ++ post' ->
               (String.length pre <= String.length pre')%nat) ->
            Ret (match Regex.exec paint_alternatives option_codes with
                 | Some m => if Js.truthy (Js.lookup colors m) then Js.lookup colors m
                             else VStr "black"
                 | None => VStr "black"
                 end) = Ret (VStr name)).
  { intros code name pre post Hin Hs Hleft.
    destruct (colors_entry _ _ Hin) as (Hlook & Htrue & Halt).
    rewrite (exec_leftmost _ _ _ _ Halt Hs Hleft), Hlook, Htrue. reflexivity. }
  split; [reflexivity|]. split; [reflexivity|]. split; [|split; [exact Hfirst|split]].
  - destruct (Regex.exec paint_alternatives option_codes) as [m|] eqn:E.
    + destruct (RegexFacts.exec_Some _ _ _ E) as (pre & post & _ & Hin & _).
      unfold paint_alternatives in Hin.
      repeat (destruct Hin as [<- | Hin]; [eexists; reflexivity|]). contradiction.
    + now exists "black".
  - intros pre post. apply (Hfirst "PPSW" "pearl white"). simpl. tauto.
  - intros Hnone.
    destruct (Regex.exec paint_alternatives option_codes) as [m|] eqn:E; [|reflexivity].
    destruct (RegexFacts.exec_Some _ _ _ E) as (pre & post & Hs & Hin & _).
    exfalso. exact (Hnone _ _ _ Hin Hs).
Qed.

Lemma getPaintColor_first_match_witness :
  Js.get (VObj [("option_codes", VStr "MS04,PPSW")]) "option_codes" = VStr "MS04,PPSW"
  /\ (List.length colors = 15%nat
      /\ map fst colors = paint_alternatives
      /\ (exists name,
            getPaintColor (VObj [("option_codes", VStr "MS04,PPSW")]) = Ret (VStr name))
      /\ (forall code name pre post,
            In (code, VStr name) colors ->
            "MS04,PPSW" = pre ++ code ++ post ->
            (forall code' pre' post',
               In code' paint_alternatives -> "MS04,PPSW" = pre' ++ code' ++ post' ->
               (String.length pre <= String.length pre')%nat) ->
            getPaintColor (VObj [("option_codes", VStr "MS04,PPSW")]) = Ret (VStr name))
      /\ (forall pre post,
            "MS04,PPSW" = pre ++ "PPSW" ++ post ->
            (forall code' pre' post',
               In code' paint_alternatives -> "MS04,PPSW" = pre' ++ code' ++ post' ->
               (String.length pre <= String.length pre')%nat) ->
            getPaintColor (VObj [("option_codes", VStr "MS04,PPSW")])
            = Ret (VStr "pearl white"))
      /\ ((forall code pre post,
             In code paint_alternatives -> "MS04,PPSW" <> pre ++ code ++ post) ->
          getPaintColor (VObj [("option_codes", VStr "MS04,PPSW")]) = Ret (VStr "black"))).
Proof.
  split; [reflexivity|].
  apply (getPaintColor_first_match (VObj [("option_codes", VStr "MS04,PPSW")])
                                   "MS04,PPSW").
  reflexivity.
Defined.

(** The claim as worded fails twice: the table has fifteen entries, not
    fourteen, and a string that contains [PPSW] after another recognised
    code does not yield "pearl white". *)
Lemma getPaintColor_counterexample :
  List.length colors <> 14%nat
  /\ "PBCW,PPSW" = "PBCW," ++ "PPSW" ++ ""
  /\ getPaintColor (VObj [("option_codes", VStr "PBCW,PPSW")]) = Ret (VStr "white")
  /\ getPaintColor (VObj [("option_codes", VStr "PBCW,PPSW")])
     <> Ret (VStr "pearl white").
Proof.
  split; [discriminate|]. split; [reflexivity|]. split; [reflexivity|]. discriminate.
Qed.

(** ** The request gateway *)

Lemma log_run (level : Z) (str : line) (w : world) :
  log level str w = (Ret tt, logged level str w).
Proof. unfold log, logged. destruct (logLevel w <? level); reflexivity. Qed.

Lemma sent_logged (level : Z) (str : line) (w : world) :
  sent (logged level str w) = sent w.
Proof. unfold logged. destruct (logLevel w <? level); reflexivity. Qed.

Lemma calls_logged (level : Z) (str : line) (w : world) :
  calls (logged level str w) = calls w.
Proof. unfold logged. destruct (logLevel w <? level); reflexivity. Qed.

Lemma portalBaseURI_logged (level : Z) (str : line) (w : world) :
  portalBaseURI (logged level str w) = portalBaseURI w.
Proof. unfold logged. destruct (logLevel w <? level); reflexivity. Qed.

Lemma env_VIN_logged (level : Z) (str : line) (w : world) :
  env_VIN (logged level str w) = env_VIN w.
Proof. unfold logged. destruct (logLevel w <? level); reflexivity. Qed.

Lemma sent_add_call (err data : value) (w : world) :
  sent (add_call err data w) = sent w.
Proof. reflexivity. Qed.

Lemma calls_add_call (err data : value) (w : world) :
  calls (add_call err data w) = (calls w ++ [(err, data)])%list.
Proof. reflexivity. Qed.

Lemma sent_add_sent (r : RequestOptions) (w : world) :
  sent (add_sent r w) = (sent w ++ [r])%list.
Proof. reflexivity. Qed.

Lemma calls_add_sent (r : RequestOptions) (w : world) :
  calls (add_sent r w) = calls w.
Proof. reflexivity. Qed.

Lemma sent_add_write (key : string) (v : value) (w : world) :
  sent (add_write key v w) = sent w.
Proof. reflexivity. Qed.

Lemma calls_add_write (key : string) (v : value) (w : world) :
  calls (add_write key v w) = calls w.
Proof. reflexivity. Qed.

Create Rewrite HintDb world.
#[export] Hint Rewrite sent_logged calls_logged portalBaseURI_logged env_VIN_logged
  sent_add_call calls_add_call sent_add_sent calls_add_sent
  sent_add_write calls_add_write : world.

(** Projections of a world reached through logging and recorded effects. *)
Ltac frame := autorewrite with world; auto.

Arguments log : simpl never.
Arguments logged : simpl never.

(** One step of symbolic execution of module code. *)
Ltac run :=
  repeat (unfold bind, read, ret, throw, try_catch, request, Date_now;
          rewrite ?log_run; cbn beta iota).

Ltac answer_error Herr :=
  rewrite Herr; run; unfold invoke;
  match goal with |- context [?cb ?e VNull] => destruct (cb e VNull) end;
  eexists; (split; [reflexivity|]); frame.

Lemma get_command_issues (options : value) (command : string)
    (callback : option nodeBack) (w : world) :
  issues (get_command options command callback) w (or_do_nothing callback)
    (fun r => VStr ("Error response: " ++ Js.number_to_string (Num (statusCode r)))).
Proof.
  unfold issues, get_command. run.
  eexists; eexists; eexists. split; [reflexivity|].
  split; [frame|]. split; [frame|].
  split; [|split].
  - intros error response body w2 Herr. answer_error Herr.
  - intros error r body w2 Herr Hstatus. rewrite Herr.
    destruct (Z.eqb_spec (statusCode r) 200) as [|_]; [contradiction|].
    cbn [negb]. run. unfold invoke.
    match goal with |- context [?cb ?e VNull] => destruct (cb e VNull) end;
      eexists; (split; [reflexivity|]); frame.
  - intros error response body w2 -> Hcontract.
    destruct (Js.truthy error) eqn:Herr.
    + run. unfold invoke, do_nothing. eexists. split; [reflexivity|]. frame.
    + destruct Hcontract as [|Hresp]; [discriminate|].
      destruct response as [r|]; [|contradiction].
      destruct (negb (statusCode r =? 200)); run; unfold invoke, do_nothing; run;
        eexists; (split; [reflexivity|]); frame.
Qed.

Lemma post_command_issues (options : value) (command : string)
    (body : option object) (callback : option nodeBack) (w : world) :
  issues (post_command options command body callback) w (or_do_nothing callback)
    (fun r => VStr ("Error response: " ++ Js.number_to_string (Num (statusCode r)))).
Proof.
  unfold issues, post_command. run.
  eexists; eexists; eexists. split; [reflexivity|].
  split; [frame|]. split; [frame|].
  split; [|split].
  - intros error response body' w2 Herr. answer_error Herr.
  - intros error r body' w2 Herr Hstatus. rewrite Herr.
    destruct (Z.eqb_spec (statusCode r) 200) as [|_]; [contradiction|].
    cbn [negb]. run. unfold invoke.
    match goal with |- context [?cb ?e VNull] => destruct (cb e VNull) end;
      eexists; (split; [reflexivity|]); frame.
  - intros error response body' w2 -> Hcontract.
    destruct (Js.truthy error) eqn:Herr.
    + run. unfold invoke, do_nothing. eexists. split; [reflexivity|]. frame.
    + destruct Hcontract as [|Hresp]; [discriminate|].
      destruct response as [r|]; [|contradiction].
      destruct (negb (statusCode r =? 200)); run; unfold invoke, do_nothing; run;
        eexists; (split; [reflexivity|]); frame.
Qed.

Lemma vehicles_issues (options : value) (callback : option nodeBack) (w : world) :
  issues (vehicles options callback) w (or_do_nothing callback)
    (fun r => VStr (statusMessage r)).
Proof.
  unfold issues, vehicles. run.
  eexists; eexists; eexists. split; [reflexivity|].
  split; [frame|]. split; [frame|].
  split; [|split].
  - intros error response body w2 Herr. answer_error Herr.
  - intros error r body w2 Herr Hstatus. rewrite Herr.
    destruct (Z.eqb_spec (statusCode r) 200) as [|_]; [contradiction|].
    cbn [negb]. run. unfold invoke.
    match goal with |- context [?cb ?e VNull] => destruct (cb e VNull) end;
      eexists; (split; [reflexivity|]); frame.
  - intros error response body w2 -> Hcontract.
    destruct (Js.truthy error) eqn:Herr.
    + run. unfold invoke, do_nothing. eexists. split; [reflexivity|]. frame.
    + destruct Hcontract as [|Hresp]; [discriminate|].
      destruct response as [r|]; [|contradiction].
      destruct (negb (statusCode r =? 200)); run; unfold invoke, do_nothing; run;
        eexists; (split; [reflexivity|]); frame.
Qed.

Lemma vehicle_issues (options : value) (callback : option nodeBack) (w : world) :
  issues (vehicle options callback) w (or_do_nothing callback)
    (fun r => VStr (statusMessage r)).
Proof.
  unfold issues, vehicle. run.
  eexists; eexists; eexists. split; [reflexivity|].
  split; [frame|]. split; [frame|].
  split; [|split].
  - intros error response body w2 Herr. answer_error Herr.
  - intros error r body w2 Herr Hstatus. rewrite Herr.
    destruct (Z.eqb_spec (statusCode r) 200) as [|_]; [contradiction|].
    cbn [negb]. run. unfold invoke.
    match goal with |- context [?cb ?e VNull] => destruct (cb e VNull) end;
      eexists; (split; [reflexivity|]); frame.
  - intros error response body w2 -> Hcontract.
    destruct (Js.truthy error) eqn:Herr.
    + run. unfold invoke, do_nothing. eexists. split; [reflexivity|]. frame.
    + destruct Hcontract as [|Hresp]; [discriminate|].
      destruct response as [r|]; [|contradiction].
      destruct (negb (statusCode r =? 200)).
      * run. unfold invoke, do_nothing. eexists. split; [reflexivity|]. frame.
      * destruct body, options; cbn [copy_id set_vehicleID]; run;
          unfold invoke, do_nothing; run; eexists; (split; [reflexivity|]); frame.
Qed.

Lemma call_issues (op : operation) (options : value) (callback : option nodeBack)
    (w : world) :
  issues (call op options callback) w (or_do_nothing callback) (status_error op).
Proof.
  destruct op; cbn [call status_error];
    unfold vehicleData, vehicleConfig, vehicleState, climateState, nearbyChargers,
      driveState, chargeState, guiSettings, mobileEnabled, honkHorn, flashLights,
      startCharge, stopCharge, openChargePort, closeChargePort,
      scheduleSoftwareUpdate, cancelSoftwareUpdate, mediaTogglePlayback,
      mediaPlayNext, mediaPlayPrevious, mediaPlayNextFavorite,
      mediaPlayPreviousFavorite, mediaVolumeUp, mediaVolumeDown,
      speedLimitActivate, speedLimitDeactivate, speedLimitClearPin,
      speedLimitSetLimit, setSentryMode, seatHeater, steeringHeater, maxDefrost,
      windowControl, setChargeLimit, chargeStandard, chargeMaxRange, doorLock,
      doorUnlock, climateStart, climateStop, sunRoofControl, sunRoofMove,
      setTemps, remoteStart, openTrunk, wakeUp, setValetMode, resetValetPin,
      calendar, homelink;
    lazymatch goal with
    | |- issues (get_command _ _ _) _ _ _ => apply get_command_issues
    | |- issues (post_command _ _ _ _) _ _ _ => apply post_command_issues
    | |- issues (vehicle _ _) _ _ _ => apply vehicle_issues
    | |- issues (vehicles _ _) _ _ _ => apply vehicles_issues
    | |- _ => idtac
    end.
  unfold issues, navigationRequest. unfold bind at 1. unfold Date_now, read.
  cbn beta iota. apply post_command_issues.
Qed.

Lemma call_without_callback (op : operation) (options : value) :
  call op options None = call op options (Some do_nothing).
Proof. destruct op; reflexivity. Qed.

(** The request that [post_command] hands to the transport. *)
Lemma post_command_request (options : value) (command : string)
    (body : option object) (callback : option nodeBack) (w : world) :
  exists h w1,
    post_command options command body callback w = (Ret h, w1)
    /\ sent w1 =
       (sent w ++
        [ {| req_method := "GET";
             req_url := portalBaseURI w ++ command ++ "?"
                        ++ URLSearchParams.toString (URLSearchParams.new body);
             req_headers := [("X-SSL-Client-S-CN", env_VIN w)];
             req_body := Some (match body with
                               | Some payload => VObj payload
                               | None => VNull
                               end) |} ])%list.
Proof.
  unfold post_command. run. eexists; eexists. split; [reflexivity|].
  cbn [sent add_sent]. now autorewrite with world.
Qed.

Module QueryFacts.

Import URLSearchParams.

Lemma pair_text_nonempty (output : string) (p : string * string) :
  (output ++ pair_text p =? "")%string = false.
Proof.
  apply String.eqb_neq. unfold pair_text. intros H.
  apply (f_equal String.length) in H.
  rewrite !StringFacts.length_app in H. simpl in H. lia.
Qed.

Lemma serialize_pair (output : string) (p : string * string) (rest : t) :
  serialize output (p :: rest)
  = serialize ((if (output =? "")%string then output else output ++ "&")
               ++ pair_text p) rest.
Proof. destruct p. reflexivity. Qed.

Lemma serialize_nonempty (pairs : t) (output : string) :
  (output =? "")%string = false ->
  serialize output pairs
  = output ++ String.concat "" (map (fun p => "&" ++ pair_text p) pairs).
Proof.
  revert output. induction pairs as [|p rest IH]; intros output Hne.
  - simpl. now rewrite StringFacts.app_nil_r.
  - rewrite serialize_pair, Hne, IH by apply pair_text_nonempty.
    cbn [map]. rewrite !StringFacts.app_assoc. f_equal.
    destruct rest; cbn [map String.concat];
      now rewrite ?StringFacts.app_assoc, ?StringFacts.app_nil_r.
Qed.

Lemma concat_separator (x : string) (xs : list string) :
  String.concat "&" (x :: xs) = x ++ String.concat "" (map (fun y => "&" ++ y) xs).
Proof.
  revert x. induction xs as [|y ys IH]; intros x.
  - simpl. now rewrite StringFacts.app_nil_r.
  - change (String.concat "&" (x :: y :: ys))
      with (x ++ "&" ++ String.concat "&" (y :: ys)).
    rewrite IH. cbn [map]. f_equal.
    destruct ys; cbn [map String.concat];
      now rewrite ?StringFacts.app_assoc, ?StringFacts.app_nil_r.
Qed.

(** The serializer joins the encoded pairs with [&]. *)
Lemma toString_concat (pairs : t) :
  toString pairs = String.concat "&" (map pair_text pairs).
Proof.
  unfold toString. destruct pairs as [|p rest]; [reflexivity|].
  rewrite serialize_pair. cbn [String.eqb]. cbn [map].
  rewrite concat_separator, serialize_nonempty by apply (pair_text_nonempty "").
  now rewrite map_map.
Qed.

End QueryFacts.



Example post_command_payload_url :
  map req_url
    (sent (snd (post_command VUndefined "speed_limit_set_limit"
                  (Some [("limit_mph", VNum (Num 65)); ("note", VStr "a b");
                         ("tags", VArr [VNull; VBool true])])
                  None (initial_world VUndefined 0))))
  = ["https://owner-api.teslamotors.comspeed_limit_set_limit?limit_mph=65&note=a+b&tags=%2Ctrue"].
Proof. reflexivity. Qed.

Example prints_rejects :
  prints (VNum (Num (10 ^ 21))) = false
  /\ prints (VObj [("toString", VNum (Num 1))]) = false
  /\ prints (VArr [VObj [("toString", VNull)]]) = false.
Proof. repeat split. Qed.

(** C2.  For every read or command operation, when the transport reports
    no error and the response status is not 200, the call has returned
    normally and its handler invokes the completion callback exactly once,
    with a [null] body and an error value derived from the status: the
    status message for [vehicle] and [vehicles], the text "Error response: "
    followed by the status code otherwise.  The callback invoked is the one
    the caller supplied (the do-nothing one when there is none), and the
    handler raises nothing of its own: it ends as that callback does, so an
    exception leaves it only if the caller's callback threw it. *)
Theorem non_200_status_reported_once (op : operation) (options : value)
    (callback : option nodeBack) (w : world)
    (error : value) (r : response) (body : value) (w2 : world) :
  Js.truthy error = false ->
  statusCode r <> 200 ->
  exists h w1 w3,
    call op options callback w = (Ret h, w1)
    /\ h error (Some r) body w2
       = (outcome (match callback with
                   | Some f => f (status_error op r) VNull
                   | None => None
                   end), w3)
    /\ calls w3 = (calls w2 ++ [(status_error op r, VNull)])%list
    /\ (status_error op r = VStr (statusMessage r)
        \/ status_error op r
           = VStr ("Error response: " ++ Js.number_to_string (Num (statusCode r))))
    /\ (forall e, fst (h error (Some r) body w2) = Throw e ->
                  exists f, callback = Some f
                            /\ f (status_error op r) VNull = Some e).
Proof.
  intros Herr Hstatus.
  destruct (call_issues op options callback w)
    as (h & w1 & req & Hrun & _ & _ & _ & Hnon200 & _).
  destruct (Hnon200 error r body w2 Herr Hstatus) as (w3 & Hh & Hcalls & _).
  exists h, w1, w3. split; [exact Hrun|].
  split; [rewrite Hh; now destruct callback|].
  split; [exact Hcalls|]. split.
  - destruct op; cbn [status_error]; auto.
  - intros e. rewrite Hh. cbn [fst].
    destruct callback as [f|]; cbn [or_do_nothing].
    + destruct (f (status_error op r) VNull) eqn:Hf; cbn [outcome]; intros H;
        [exists f; split; [reflexivity | congruence] | discriminate].
    + unfold do_nothing. cbn [outcome]. discriminate.
Qed.

Lemma non_200_status_reported_once_witness :
  Js.truthy VNull = false
  /\ statusCode (mkResponse 404 "Not Found") <> 200
  /\ exists h w1 w3,
       call VehicleData VUndefined
         (Some (fun err _ => if Js.truthy err then Some err else None))
         (initial_world VUndefined 0) = (Ret h, w1)
       /\ h VNull (Some (mkResponse 404 "Not Found")) VUndefined
            (initial_world VUndefined 0)
          = (outcome (match Some (fun err (_ : value) =>
                                    if Js.truthy err then Some err else None) with
                      | Some f =>
                          f (status_error VehicleData (mkResponse 404 "Not Found")) VNull
                      | None => None
                      end), w3)
       /\ calls w3
          = (calls (initial_world VUndefined 0)
             ++ [(status_error VehicleData (mkResponse 404 "Not Found"), VNull)])%list
       /\ (status_error VehicleData (mkResponse 404 "Not Found")
           = VStr (statusMessage (mkResponse 404 "Not Found"))
           \/ status_error VehicleData (mkResponse 404 "Not Found")
              = VStr ("Error response: "
                      ++ Js.number_to_string (Num (statusCode (mkResponse 404 "Not Found")))))
       /\ (forall e,
             fst (h VNull (Some (mkResponse 404 "Not Found")) VUndefined
                    (initial_world VUndefined 0)) = Throw e ->
             exists f,
               Some (fun err (_ : value) => if Js.truthy err then Some err else None)
               = Some f
               /\ f (status_error VehicleData (mkResponse 404 "Not Found")) VNull = Some e).
Proof.
  split; [reflexivity|]. split; [discriminate|].
  apply (non_200_status_reported_once VehicleData VUndefined
           (Some (fun err _ => if Js.truthy err then Some err else None))
           (initial_world VUndefined 0) VNull (mkResponse 404 "Not Found")
           VUndefined (initial_world VUndefined 0));
    [reflexivity | discriminate].
Defined.

Example vehicleData_404_throwing_callback :
  match vehicleData VUndefined
          (Some (fun err _ => if Js.truthy err then Some err else None))
          (initial_world VUndefined 0) with
  | (Ret h, w) =>
      h VNull (Some (mkResponse 404 "Not Found")) VUndefined w
      = (Throw (VStr "Error response: 404"),
         add_call (VStr "Error response: 404") VNull w)
  | (Throw _, _) => False
  end.
Proof. reflexivity. Qed.

(** X22.  For every read and command operation of the vehicle API
    ([vehicle], [vehicles], [get_command], [post_command] and the wrappers
    over them), when the caller supplies no completion callback the
    do-nothing callback stands in for it, the call returns normally after
    handing its request to the transport, and whatever the transport then
    reports -- an error, a status that is not 200, a body -- the handler
    returns normally as well and sends nothing more: the failure is
    dropped, nothing is thrown.  The transport passes an error or a
    response. *)
Theorem no_callback_failures_discarded (op : operation) (options : value)
    (w : world) (error : value) (response : option response) (body : value)
    (w2 : world) :
  Js.truthy error = true \/ response <> None ->
  call op options None = call op options (Some do_nothing)
  /\ exists h w1 w3 req,
       call op options None w = (Ret h, w1)
       /\ sent w1 = (sent w ++ [req])%list
       /\ h error response body w2 = (Ret tt, w3)
       /\ sent w3 = sent w2.
Proof.
  intros Hcontract. split; [apply call_without_callback|].
  destruct (call_issues op options None w)
    as (h & w1 & req & Hrun & Hsent & _ & _ & _ & Hquiet).
  destruct (Hquiet error response body w2 eq_refl Hcontract) as (w3 & Hh & Hsent3).
  exists h, w1, w3, req. auto.
Qed.

Lemma no_callback_failures_discarded_witness :
  (Js.truthy (VError "Error" "connect ECONNREFUSED") = true
   \/ @None response <> None)
  /\ call HonkHorn VUndefined None = call HonkHorn VUndefined (Some do_nothing)
  /\ exists h w1 w3 req,
       call HonkHorn VUndefined None (initial_world VUndefined 0) = (Ret h, w1)
       /\ sent w1 = (sent (initial_world VUndefined 0) ++ [req])%list
       /\ h (VError "Error" "connect ECONNREFUSED") None VUndefined
            (initial_world VUndefined 0) = (Ret tt, w3)
       /\ sent w3 = sent (initial_world VUndefined 0).
Proof.
  split; [left; reflexivity|].
  apply (no_callback_failures_discarded HonkHorn VUndefined
           (initial_world VUndefined 0) (VError "Error" "connect ECONNREFUSED")
           None VUndefined (initial_world VUndefined 0)).
  left. reflexivity.
Defined.

Lemma clamp_in_range (z lo hi : Z) :
  lo <= hi -> exists p, clamp (Num z) (Num lo) (Num hi) = Num p /\ lo <= p <= hi.
Proof.
  intros Hle. unfold clamp, Js.gtb, Js.ltb.
  destruct (Z.ltb_spec z lo); destruct (Z.ltb_spec hi lo); try lia;
    try destruct (Z.ltb_spec hi z); eexists; (split; [reflexivity|]); lia.
Qed.

(** C9.  [clamp] is the two-sided clamp: with bounds that are not crossed
    (not [hi < lo]) it returns [lo] when [v < lo], [hi] when [v > hi], and
    [v] otherwise; so 30, 150 and 75 clamped to 50..100 give 50, 100 and 75,
    and 10 and 30 clamped to 15..28 give 15 and 28.  [setChargeLimit] sends
    its percent argument clamped to 50..100, and [setTemps] sends both
    temperatures clamped to 15..28: the driver's, and the caller's passenger
    temperature, or the driver's in its place when the caller's is absent or
    falsy; for numeric arguments the values sent lie within those bounds. *)
Theorem clamp_two_sided (v lo hi : number) :
  Js.ltb hi lo = false ->
  (Js.ltb v lo = true -> clamp v lo hi = lo)
  /\ (Js.gtb v hi = true -> clamp v lo hi = hi)
  /\ (Js.ltb v lo = false -> Js.gtb v hi = false -> clamp v lo hi = v)
  /\ clamp (Num 30) (Num 50) (Num 100) = Num 50
  /\ clamp (Num 150) (Num 50) (Num 100) = Num 100
  /\ clamp (Num 75) (Num 50) (Num 100) = Num 75
  /\ clamp (Num 10) (Num 15) (Num 28) = Num 15
  /\ clamp (Num 30) (Num 15) (Num 28) = Num 28
  /\ (forall options amt callback w,
        exists h w1 req,
          setChargeLimit options amt callback w = (Ret h, w1)
          /\ sent w1 = (sent w ++ [req])%list
          /\ req_body req
             = Some (VObj [("percent", VNum (clamp amt (Num 50) (Num 100)))]))
  /\ (forall options driver pass callback w,
        exists h w1 req,
          setTemps options driver pass callback w = (Ret h, w1)
          /\ sent w1 = (sent w ++ [req])%list
          /\ req_body req
             = Some (VObj [("driver_temp", VNum (clamp driver (Num 15) (Num 28)));
                           ("passenger_temp",
                            VNum (clamp (match pass with
                                         | Some p =>
                                             if Js.truthy (VNum p) then p else driver
                                         | None => driver
                                         end) (Num 15) (Num 28)))]))
  /\ (forall z, exists p, clamp (Num z) (Num 50) (Num 100) = Num p /\ 50 <= p <= 100)
  /\ (forall z, exists p, clamp (Num z) (Num 15) (Num 28) = Num p /\ 15 <= p <= 28).
Proof.
  intros Hbounds.
  split; [|split; [|split]].
  - unfold clamp, Js.gtb. intros ->. now rewrite Hbounds.
  - unfold clamp, Js.gtb. intros Hgt.
    destruct (Js.ltb v lo) eqn:Hlt; [|now rewrite Hgt].
    exfalso. destruct v as [|x], lo as [|l], hi as [|u]; try discriminate.
    unfold Js.ltb in *.
    apply Z.ltb_lt in Hgt, Hlt. apply Z.ltb_ge in Hbounds. lia.
  - unfold clamp, Js.gtb. intros -> Hgt. unfold Js.gtb in Hgt. now rewrite Hgt.
  - repeat (split; [reflexivity|]).
    split; [|split; [|split]].
    + intros options amt callback w. unfold setChargeLimit.
      destruct (post_command_request options "set_charge_limit"
                  (Some [("percent", VNum (clamp amt CHARGE_STORAGE CHARGE_RANGE))])
                  callback w) as (h & w1 & Hrun & Hsent).
      eexists h, w1, _. split; [exact Hrun|]. split; [exact Hsent|]. reflexivity.
    + intros options driver pass callback w. unfold setTemps.
      match goal with
      | |- context [post_command options "set_temps" ?payload callback w] =>
          destruct (post_command_request options "set_temps" payload callback w)
            as (h & w1 & Hrun & Hsent)
      end.
      eexists h, w1, _. split; [exact Hrun|]. split; [exact Hsent|].
      cbn [req_body]. destruct pass as [p|]; [|reflexivity].
      cbn [optional]. destruct (Js.truthy (VNum p)); reflexivity.
    + intros z. apply clamp_in_range. lia.
    + intros z. apply clamp_in_range. lia.
Qed.

Lemma clamp_two_sided_witness :
  Js.ltb (Num 100) (Num 50) = false
  /\ (Js.ltb (Num 30) (Num 50) = true -> clamp (Num 30) (Num 50) (Num 100) = Num 50).
Proof.
  split; [reflexivity|].
  apply (clamp_two_sided (Num 30) (Num 50) (Num 100)). reflexivity.
Defined.

(** C10.  When the passenger temperature passed to [setTemps] is absent or
    falsy (zero and [NaN] included), the driver temperature takes its place
    before clamping: the call is the call with the driver temperature as
    passenger temperature, and the payload sent has [driver_temp] and
    [passenger_temp] equal, both the driver temperature clamped to 15..28. *)
Theorem setTemps_falsy_passenger (options : value) (driver : number)
    (pass : option number) (callback : option nodeBack) (w : world) :
  Js.truthy (optional pass) = false ->
  setTemps options driver pass callback = setTemps options driver (Some driver) callback
  /\ exists h w1 req temp,
       setTemps options driver pass callback w = (Ret h, w1)
       /\ sent w1 = (sent w ++ [req])%list
       /\ req_body req
          = Some (VObj [("driver_temp", VNum temp); ("passenger_temp", VNum temp)])
       /\ temp = clamp driver MIN_TEMP MAX_TEMP.
Proof.
  intros Hfalsy.
  assert (Hsame : setTemps options driver pass callback
                  = post_command options "set_temps"
                      (Some [("driver_temp", VNum (clamp driver MIN_TEMP MAX_TEMP));
                             ("passenger_temp", VNum (clamp driver MIN_TEMP MAX_TEMP))])
                      callback).
  { unfold setTemps. rewrite Hfalsy. reflexivity. }
  split.
  - rewrite Hsame. unfold setTemps.
    destruct (negb (Js.truthy (optional (Some driver)))); reflexivity.
  - rewrite Hsame.
    match goal with
    | |- context [post_command options "set_temps" ?payload callback w] =>
        destruct (post_command_request options "set_temps" payload callback w)
          as (h & w1 & Hrun & Hsent)
    end.
    eexists h, w1, _, _. split; [exact Hrun|]. split; [exact Hsent|].
    split; reflexivity.
Qed.

Lemma setTemps_falsy_passenger_witness :
  Js.truthy (optional (Some (Num 0))) = false
  /\ setTemps VUndefined (Num 21) (Some (Num 0)) None
     = setTemps VUndefined (Num 21) (Some (Num 21)) None
  /\ exists h w1 req temp,
       setTemps VUndefined (Num 21) (Some (Num 0)) None (initial_world VUndefined 0)
       = (Ret h, w1)
       /\ sent w1 = (sent (initial_world VUndefined 0) ++ [req])%list
       /\ req_body req
          = Some (VObj [("driver_temp", VNum temp); ("passenger_temp", VNum temp)])
       /\ temp = clamp (Num 21) MIN_TEMP MAX_TEMP.
Proof.
  split; [reflexivity|].
  apply (setTemps_falsy_passenger VUndefined (Num 21) (Some (Num 0)) None
           (initial_world VUndefined 0)).
  reflexivity.
Defined.

(** * Further properties of the module *)

(** ** The VIN helpers *)

Lemma substr_app (pre post : string) :
  substr (pre ++ post) (String.length pre) = post.
Proof. induction pre as [|c pre IH]; simpl; [now destruct post | exact IH]. Qed.

Lemma substr_short (s : string) (start : nat) :
  (String.length s <= start)%nat -> substr s start = "".
Proof.
  revert s. induction start as [|n IH]; intros [|c s]; simpl; intros H;
    try reflexivity; try lia.
  apply IH. lia.
Qed.

Lemma substr_length (s : string) (start : nat) :
  String.length (substr s start) = (String.length s - start)%nat.
Proof.
  revert s. induction start as [|n IH]; intros [|c s]; simpl; try reflexivity.
  apply IH.
Qed.

Lemma vinDecode_falsy (vehicle : value) :
  Js.truthy vehicle = false \/ Js.truthy (Js.get vehicle "vin") = false ->
  vinDecode vehicle = Ret default_info.
Proof.
  intros [H | H]; unfold vinDecode; rewrite H; cbn [negb]; [reflexivity|].
  destruct (Js.truthy vehicle); reflexivity.
Qed.


Example getShortVin_numeric_vin :
  getVin (VObj [("vin", VNum (Num 5))]) = Ret (VNum (Num 5))
  /\ getShortVin (VObj [("vin", VNum (Num 5))])
     = Throw (Js.TypeError "vehicle.vin.substr is not a function")
  /\ getShortVin (VObj [("vin", VStr "")]) = Throw (Error "invalid parameter")
  /\ getShortVin VNull = Throw (Error "invalid parameter").
Proof. repeat split. Qed.

(** X2.  For a vehicle whose [vin] is a non-empty string, [getShortVin]
    returns what follows the first eleven characters: the serial part of a
    full identifier, and the empty string when the identifier has eleven
    characters or fewer. *)
Theorem getShortVin_drops_eleven (vehicle : value) (vin : string) :
  Js.get vehicle "vin" = VStr vin ->
  vin <> "" ->
  exists short,
    getShortVin vehicle = Ret (VStr short)
    /\ String.length short = (String.length vin - 11)%nat
    /\ (forall pre post,
          vin = pre ++ post -> String.length pre = 11%nat -> short = post)
    /\ ((String.length vin <= 11)%nat -> short = "").
Proof.
  intros Hget Hne.
  destruct (get_string_object _ _ _ Hget) as [fields ->].
  exists (substr vin 11). unfold getShortVin.
  rewrite Hget, (truthy_nonempty _ Hne). cbn [Js.truthy negb].
  split; [reflexivity|]. split; [apply substr_length|]. split.
  - intros pre post -> Hlen. rewrite <- Hlen. apply substr_app.
  - apply substr_short.
Qed.

Lemma getShortVin_drops_eleven_witness :
  Js.get (VObj [("vin", VStr "5YJSA1E26LF000316")]) "vin" = VStr "5YJSA1E26LF000316"
  /\ "5YJSA1E26LF000316" <> ""
  /\ exists short,
       getShortVin (VObj [("vin", VStr "5YJSA1E26LF000316")]) = Ret (VStr short)
       /\ String.length short = (String.length "5YJSA1E26LF000316" - 11)%nat
       /\ (forall pre post,
             "5YJSA1E26LF000316" = pre ++ post -> String.length pre = 11%nat ->
             short = post)
       /\ ((String.length "5YJSA1E26LF000316" <= 11)%nat -> short = "").
Proof.
  split; [reflexivity|]. split; [discriminate|].
  apply (getShortVin_drops_eleven (VObj [("vin", VStr "5YJSA1E26LF000316")])
                                  "5YJSA1E26LF000316"); [reflexivity | discriminate].
Defined.

Example getShortVin_serial :
  getShortVin (VObj [("vin", VStr "5YJSA1E26LF000316")]) = Ret (VStr "000316").
Proof. reflexivity. Qed.

Lemma vinDecode_not_string (vehicle : value) :
  Js.truthy (Js.get vehicle "vin") = true ->
  (forall s, Js.get vehicle "vin" <> VStr s) ->
  vinDecode vehicle = Throw (Js.TypeError "vehicle.vin.charCodeAt is not a function").
Proof.
  intros Hvin Hns.
  assert (Hv : Js.truthy vehicle = true)
    by (destruct vehicle; try reflexivity; discriminate).
  unfold vinDecode. rewrite Hv, Hvin. cbn [negb].
  destruct (Js.get vehicle "vin"); try reflexivity.
  exfalso. eapply Hns. reflexivity.
Qed.

(** X3.  [getModel] returns exactly when the [vin] property is falsy or a
    string, and then the model is the one [vinDecode] decodes, one of the
    four model names; it throws exactly when the [vin] property is truthy
    but not a string, and then what it throws is a TypeError. *)
Theorem getModel_outcomes (vehicle : value) :
  (exists info,
     vinDecode vehicle = Ret info
     /\ getModel vehicle = Ret (carType info)
     /\ (carType info = ModelS \/ carType info = Model3
         \/ carType info = ModelX \/ carType info = ModelY)
     /\ (Js.truthy (Js.get vehicle "vin") = false
         \/ exists s, Js.get vehicle "vin" = VStr s))
  \/ ((exists message, getModel vehicle = Throw (Js.TypeError message))
      /\ Js.truthy (Js.get vehicle "vin") = true
      /\ forall s, Js.get vehicle "vin" <> VStr s).
Proof.
  unfold getModel.
  destruct (Js.truthy (Js.get vehicle "vin")) eqn:Hvin.
  - destruct (Js.get vehicle "vin") as [| |b|n|s|items|fields|name message] eqn:Hget.
    5: { left. rewrite (vinDecode_total _ _ Hget). eexists.
         split; [reflexivity|]. split; [reflexivity|].
         split; [|right; exists s; reflexivity].
         rewrite decoded_carType. unfold decoded, carType.
         destruct (Js.charAt s 3 =? "S")%string; auto.
         destruct (Js.charAt s 3 =? "3")%string; auto.
         destruct (Js.charAt s 3 =? "X")%string; auto.
         destruct (Js.charAt s 3 =? "Y")%string; auto. }
    all: right; rewrite vinDecode_not_string;
      [ split; [eexists; reflexivity|]; split; [reflexivity|];
        intros s0; discriminate
      | rewrite Hget; exact Hvin
      | rewrite Hget; intros s0; discriminate ].
  - left. exists default_info. rewrite (vinDecode_falsy vehicle) by (now right).
    repeat split; auto.
Qed.

Example getModel_numeric_vin :
  getModel (VObj [("vin", VNum (Num 5))])
  = Throw (Js.TypeError "vehicle.vin.charCodeAt is not a function")
  /\ getModel (VObj [("vin", VStr "5YJXCAE2")]) = Ret ModelX
  /\ getModel (VObj [("vin", VNum (Num 0))]) = Ret ModelS
  /\ getModel VUndefined = Ret ModelS.
Proof. repeat split. Qed.

Lemma get_beyond (s : string) (n : nat) :
  (String.length s <= n)%nat -> String.get n s = None.
Proof.
  revert n. induction s as [|c s IH]; intros [|n]; simpl; intros H;
    try reflexivity; try lia.
  apply IH. lia.
Qed.

(** X4.  An identifier string that is not empty but has fewer than ten
    characters still decodes, with a year that is not a number: position 9
    has no character code, and the arithmetic on it gives [NaN].  With eight
    characters or fewer the all-wheel-drive flag stays false, with four or
    fewer the model stays Model S. *)
Theorem vinDecode_short_identifier (vehicle : value) (vin : string) :
  Js.get vehicle "vin" = VStr vin ->
  vin <> "" ->
  (String.length vin <= 9)%nat ->
  exists info,
    vinDecode vehicle = Ret info
    /\ year info = NaN
    /\ ((String.length vin <= 7)%nat -> awd info = false)
    /\ ((String.length vin <= 3)%nat -> carType info = ModelS).
Proof.
  intros Hget Hne Hlen. exists (decoded vin).
  split; [now apply vinDecode_string|].
  unfold decoded, year, awd, carType, Js.charCodeAt, Js.charAt.
  rewrite (get_beyond vin 9 Hlen). split; [reflexivity|]. split; intros H.
  - now rewrite (get_beyond vin 7 H).
  - now rewrite (get_beyond vin 3 H).
Qed.

Lemma vinDecode_short_identifier_witness :
  Js.get (VObj [("vin", VStr "5YJ3E1EB")]) "vin" = VStr "5YJ3E1EB"
  /\ "5YJ3E1EB" <> ""
  /\ (String.length "5YJ3E1EB" <= 9)%nat
  /\ exists info,
       vinDecode (VObj [("vin", VStr "5YJ3E1EB")]) = Ret info
       /\ year info = NaN
       /\ ((String.length "5YJ3E1EB" <= 7)%nat -> awd info = false)
       /\ ((String.length "5YJ3E1EB" <= 3)%nat -> carType info = ModelS).
Proof.
  split; [reflexivity|]. split; [discriminate|]. split; [simpl; lia|].
  apply (vinDecode_short_identifier (VObj [("vin", VStr "5YJ3E1EB")]) "5YJ3E1EB");
    [reflexivity | discriminate | simpl; lia].
Defined.

(** ** The paint colour lookup, continued *)

(** X5.  [getPaintColor] returns exactly when the vehicle's [option_codes]
    is a string, and what it returns is always a name of the [colors]
    table (the default "black" is the name of [PBSB]); for any other
    vehicle it throws a TypeError. *)
Theorem getPaintColor_outcomes (vehicle : value) :
  (exists option_codes code name,
     Js.get vehicle "option_codes" = VStr option_codes
     /\ getPaintColor vehicle = Ret (VStr name)
     /\ In (code, VStr name) colors)
  \/ (exists message,
        getPaintColor vehicle = Throw (Js.TypeError message)
        /\ forall s, Js.get vehicle "option_codes" <> VStr s).
Proof.
  destruct (Js.get vehicle "option_codes") as [| |b|n|s|items|fields|name message] eqn:Hget.
  5: { left. rewrite (getPaintColor_string _ _ Hget).
       destruct (Regex.exec paint_alternatives s) as [m|] eqn:E.
       - destruct (RegexFacts.exec_Some _ _ _ E) as (pre & post & _ & Hin & _).
         unfold paint_alternatives in Hin.
         repeat (destruct Hin as [<- | Hin];
                 [ eexists s, _, _; split; [reflexivity|]; split; [reflexivity|];
                   simpl; tauto |]).
         contradiction.
       - exists s, "PBSB", "black". repeat split. simpl. tauto. }
  all: right; unfold getPaintColor; rewrite Hget;
    destruct vehicle; eexists; (split; [reflexivity | intros s0; discriminate]).
Qed.

(** ** Query strings, continued *)

Lemma all_chars_app (p : ascii -> bool) (a b : string) :
  all_chars p (a ++ b) = all_chars p a && all_chars p b.
Proof.
  induction a as [|c a IH]; simpl; [reflexivity|].
  now rewrite IH, Bool.andb_assoc.
Qed.

Lemma encode_char_safe (c : ascii) :
  all_chars query_safe
    (String.concat "" (map URLSearchParams.encode_byte (URLSearchParams.utf8 c)))
  = true.
Proof. destruct c as [[] [] [] [] [] [] [] []]; vm_compute; reflexivity. Qed.

Lemma encode_char_unreserved (c : ascii) :
  URLSearchParams.unreserved (N_of_ascii c) = true ->
  String.concat "" (map URLSearchParams.encode_byte (URLSearchParams.utf8 c))
  = String c "".
Proof.
  destruct c as [[] [] [] [] [] [] [] []]; vm_compute;
    intros H; try reflexivity; discriminate.
Qed.

(** Whatever the text, its encoding is made of letters, digits and [*],
    [-], [.], [_], [+], [%] only. *)
Lemma encode_is_query_safe (s : string) :
  all_chars query_safe (URLSearchParams.encode s) = true
  /\ query_safe "&" = false /\ query_safe "=" = false /\ query_safe "?" = false
  /\ query_safe "#" = false /\ query_safe "/" = false /\ query_safe " " = false.
Proof.
  split; [|repeat split].
  induction s as [|c s IH]; [reflexivity|].
  cbn [URLSearchParams.encode].
  now rewrite all_chars_app, encode_char_safe, IH.
Qed.

Lemma encode_unreserved (s : string) :
  all_chars (fun c => URLSearchParams.unreserved (N_of_ascii c)) s = true ->
  URLSearchParams.encode s = s.
Proof.
  induction s as [|c s IH]; [reflexivity|].
  cbn [all_chars URLSearchParams.encode]. intros H.
  apply Bool.andb_true_iff in H as [Hc Hs].
  now rewrite (encode_char_unreserved c Hc), IH.
Qed.

Lemma digits_unreserved (d : Decimal.uint) :
  all_chars (fun c => URLSearchParams.unreserved (N_of_ascii c))
    (NilEmpty.string_of_uint d) = true.
Proof. induction d; simpl; auto. Qed.

Lemma number_unreserved (n : number) :
  all_chars (fun c => URLSearchParams.unreserved (N_of_ascii c))
    (Js.number_to_string n) = true.
Proof.
  destruct n as [|z]; [reflexivity|].
  unfold Js.number_to_string, NilZero.string_of_int.
  destruct (Z.to_int z) as [d | d]; unfold NilZero.string_of_uint.
  - destruct d; try reflexivity; apply digits_unreserved.
  - cbn [all_chars]. destruct d; try reflexivity; apply digits_unreserved.
Qed.

(** A text made of letters, digits and [*], [-], [.], [_] is its own
    encoding, and so is the decimal text of every number. *)
Lemma encode_keeps_plain_text (s : string) :
  all_chars (fun c => URLSearchParams.unreserved (N_of_ascii c)) s = true ->
  URLSearchParams.encode s = s
  /\ forall n, URLSearchParams.encode (Js.ToString (VNum n)) = Js.ToString (VNum n).
Proof.
  intros H. split; [now apply encode_unreserved|].
  intros n. apply encode_unreserved, number_unreserved.
Qed.

Lemma encode_keeps_plain_text_witness :
  all_chars (fun c => URLSearchParams.unreserved (N_of_ascii c)) "driver_temp" = true
  /\ URLSearchParams.encode "driver_temp" = "driver_temp"
  /\ forall n, URLSearchParams.encode (Js.ToString (VNum n)) = Js.ToString (VNum n).
Proof.
  split; [reflexivity|].
  apply (encode_keeps_plain_text "driver_temp"). reflexivity.
Defined.

(** ** The request gateway, continued *)

Lemma bind_log_run {B : Type} (level : Z) (str : line) (k : unit -> M B) (w : world) :
  bind (log level str) k w = k tt (logged level str w).
Proof. unfold bind. now rewrite log_run. Qed.

Lemma bind_read_run {A B : Type} (f : world -> A) (k : A -> M B) (w : world) :
  bind (read f) k w = k (f w) w.
Proof. reflexivity. Qed.

(** The steps of a call up to the hand-over to the transport; the handler is
    left as it is written. *)
Ltac call_phase :=
  repeat first [ rewrite bind_log_run | rewrite bind_read_run | progress cbv zeta ];
  unfold request.

Lemma keeps_ret {A : Type} (I : world -> Prop) (a : A) : keeps I (ret a).
Proof. intros w H. exact H. Qed.

Lemma keeps_throw {A : Type} (I : world -> Prop) (e : value) : keeps I (@throw A e).
Proof. intros w H. exact H. Qed.

Lemma keeps_bind {A B : Type} (I : world -> Prop) (c : M A) (k : A -> M B) :
  keeps I c -> (forall a, keeps I (k a)) -> keeps I (bind c k).
Proof.
  intros Hc Hk w H. unfold bind. specialize (Hc w H).
  destruct (c w) as [[a | e] w']; cbn [snd] in *; [now apply Hk | exact Hc].
Qed.

Lemma keeps_try_catch {A : Type} (I : world -> Prop) (c : M A) (h : value -> M A) :
  keeps I c -> (forall e, keeps I (h e)) -> keeps I (try_catch c h).
Proof.
  intros Hc Hh w H. unfold try_catch. specialize (Hc w H).
  destruct (c w) as [[a | e] w']; cbn [snd] in *; [exact Hc | now apply Hh].
Qed.

Lemma keeps_copy_id (I : world -> Prop) (body : value) : keeps I (copy_id body).
Proof. destruct body; intros w H; exact H. Qed.

(** Splitting a handler into the steps it is made of. *)
Ltac keeps_steps Hlog Hinvoke Hwrite :=
  repeat first
    [ apply keeps_bind; [|intros ?]
    | apply keeps_try_catch; [|intros ?]
    | apply keeps_ret
    | apply keeps_throw
    | apply keeps_copy_id
    | apply Hinvoke
    | apply Hwrite
    | apply Hlog; unfold API_ERR_LEVEL, API_CALL_LEVEL, API_RETURN_LEVEL,
        API_BODY_LEVEL, API_REQUEST_LEVEL, API_RESPONSE_LEVEL; lia
    | match goal with
      | |- keeps _ (if ?b then _ else _) => destruct b
      | |- keeps _ (match ?x with _ => _ end) => destruct x
      end
    | progress cbv beta zeta ].

Ltac unfold_wrappers :=
  unfold vehicleData, vehicleConfig, vehicleState, climateState, nearbyChargers,
    driveState, chargeState, guiSettings, mobileEnabled, honkHorn, flashLights,
    startCharge, stopCharge, openChargePort, closeChargePort,
    scheduleSoftwareUpdate, cancelSoftwareUpdate, mediaTogglePlayback,
    mediaPlayNext, mediaPlayPrevious, mediaPlayNextFavorite,
    mediaPlayPreviousFavorite, mediaVolumeUp, mediaVolumeDown,
    speedLimitActivate, speedLimitDeactivate, speedLimitClearPin,
    speedLimitSetLimit, setSentryMode, seatHeater, steeringHeater, maxDefrost,
    windowControl, setChargeLimit, chargeStandard, chargeMaxRange, doorLock,
    doorUnlock, climateStart, climateStop, sunRoofControl, sunRoofMove,
    setTemps, remoteStart, openTrunk, wakeUp, setValetMode, resetValetPin,
    calendar, homelink, navigationRequest.

Section HandlerInvariant.

Variable I : world -> Prop.
Hypothesis Hlog : forall level str, 1 <= level -> keeps I (log level str).
Hypothesis Hinvoke : forall callback err data, keeps I (invoke callback err data).
Hypothesis Hwrite : forall options v, keeps I (set_vehicleID options v).

Lemma get_command_handler_keeps options command callback w :
  handler_keeps I (get_command options command callback) w.
Proof.
  unfold handler_keeps, get_command. call_phase. eexists; eexists. split; [reflexivity|].
  intros error response body. keeps_steps Hlog Hinvoke Hwrite.
Qed.

Lemma post_command_handler_keeps options command body callback w :
  handler_keeps I (post_command options command body callback) w.
Proof.
  unfold handler_keeps, post_command. call_phase. eexists; eexists. split; [reflexivity|].
  intros error response body'. keeps_steps Hlog Hinvoke Hwrite.
Qed.

Lemma vehicles_handler_keeps options callback w :
  handler_keeps I (vehicles options callback) w.
Proof.
  unfold handler_keeps, vehicles. call_phase. eexists; eexists. split; [reflexivity|].
  intros error response body. keeps_steps Hlog Hinvoke Hwrite.
Qed.

Lemma vehicle_handler_keeps options callback w :
  handler_keeps I (vehicle options callback) w.
Proof.
  unfold handler_keeps, vehicle. call_phase. eexists; eexists. split; [reflexivity|].
  intros error response body. keeps_steps Hlog Hinvoke Hwrite.
Qed.

Lemma call_handler_keeps op options callback w :
  handler_keeps I (call op options callback) w.
Proof.
  destruct op; cbn [call]; unfold_wrappers;
    lazymatch goal with
    | |- handler_keeps _ (get_command _ _ _) _ => apply get_command_handler_keeps
    | |- handler_keeps _ (post_command _ _ _ _) _ => apply post_command_handler_keeps
    | |- handler_keeps _ (vehicle _ _) _ => apply vehicle_handler_keeps
    | |- handler_keeps _ (vehicles _ _) _ => apply vehicles_handler_keeps
    | |- _ => idtac
    end.
  unfold handler_keeps, Date_now. rewrite bind_read_run.
  apply post_command_handler_keeps.
Qed.

End HandlerInvariant.

(** The world a call leaves behind: two log entries and one request, whose
    URL starts with the base URI in force. *)
Lemma call_sends (op : operation) (options : value) (callback : option nodeBack)
    (w : world) :
  exists h suffix body first_line,
    call op options callback w
    = (Ret h,
       add_sent
         (mkRequest "GET" (portalBaseURI w ++ suffix)
            [("X-SSL-Client-S-CN", env_VIN w)] body)
         (logged API_REQUEST_LEVEL
            (RequestJSON
               (mkRequest "GET" (portalBaseURI w ++ suffix)
                  [("X-SSL-Client-S-CN", env_VIN w)] body))
            (logged API_CALL_LEVEL first_line w))).
Proof.
  destruct op; cbn [call]; unfold_wrappers;
    unfold get_command, post_command, vehicle, vehicles, Date_now;
    call_phase; autorewrite with world;
    do 4 eexists; reflexivity.
Qed.

(** X7.  A command call with no payload ([null]) still sends a query
    string, an empty one: the URL is the base URI, the command path and a
    trailing [?], and the body is [null].  An empty payload object gives the
    same URL, with the empty object as body. *)
Theorem post_command_without_payload (options : value) (command : string)
    (callback : option nodeBack) (w : world) :
  (exists h w1,
     post_command options command None callback w = (Ret h, w1)
     /\ sent w1 =
        (sent w ++ [ mkRequest "GET" (portalBaseURI w ++ command ++ "?")
                       [("X-SSL-Client-S-CN", env_VIN w)] (Some VNull) ])%list)
  /\ (exists h w1,
        post_command options command (Some []) callback w = (Ret h, w1)
        /\ sent w1 =
           (sent w ++ [ mkRequest "GET" (portalBaseURI w ++ command ++ "?")
                          [("X-SSL-Client-S-CN", env_VIN w)] (Some (VObj [])) ])%list).
Proof.
  split.
  - destruct (post_command_request options command None callback w)
      as (h & w1 & Hrun & Hsent).
    exists h, w1. split; [exact Hrun|]. rewrite Hsent. reflexivity.
  - destruct (post_command_request options command (Some []) callback w)
      as (h & w1 & Hrun & Hsent).
    exists h, w1. split; [exact Hrun|]. rewrite Hsent. reflexivity.
Qed.

(** X8.  No operation reads its [options] argument when it builds its
    request: two calls that differ in their options only leave the same
    world and send the same request, a GET whose only header is
    [X-SSL-Client-S-CN] with the value of [process.env.VIN] -- no token of
    the options goes out.  Apart from [vehicle], which writes [vehicleID]
    into the options, the handlers are the same as well. *)
Theorem requests_ignore_options (op : operation) (options1 options2 : value)
    (callback : option nodeBack) (w : world) :
  exists h1 h2 w1 req,
    call op options1 callback w = (Ret h1, w1)
    /\ call op options2 callback w = (Ret h2, w1)
    /\ sent w1 = (sent w ++ [req])%list
    /\ req_method req = "GET"
    /\ req_headers req = [("X-SSL-Client-S-CN", env_VIN w)]
    /\ (op <> Vehicle -> h1 = h2).
Proof.
  destruct op; cbn [call]; unfold_wrappers;
    unfold get_command, post_command, vehicle, vehicles, Date_now;
    call_phase; autorewrite with world;
    do 4 eexists;
    (split; [reflexivity|]); (split; [reflexivity|]);
    (split; [frame|]); (split; [reflexivity|]); (split; [reflexivity|]);
    intros Hop; try reflexivity; contradiction.
Qed.

(** X9.  Every call hands exactly one request to the transport and does
    not invoke the callback before it returns.  Whatever the transport
    reports, and whether the callback returns or throws, the steps of the
    handler itself -- its logging, its invocations of the callback, the
    write of [vehicle] -- send no further request and leave the base URI
    and the log level as they are: the library does not retry.  A callback
    whose own code calls the library again makes that call's request, which
    is not a step of this handler. *)
Theorem one_request_per_call (op : operation) (options : value)
    (callback : option nodeBack) (w : world)
    (error : value) (response : option response) (body : value) (w2 : world) :
  exists h w1 req,
    call op options callback w = (Ret h, w1)
    /\ sent w1 = (sent w ++ [req])%list
    /\ calls w1 = calls w
    /\ sent (snd (h error response body w2)) = sent w2
    /\ portalBaseURI (snd (h error response body w2)) = portalBaseURI w2
    /\ logLevel (snd (h error response body w2)) = logLevel w2.
Proof.
  destruct (call_issues op options callback w)
    as (h & w1 & req & Hrun & Hsent & Hcalls & _).
  destruct (call_handler_keeps
              (fun w' => sent w' = sent w2 /\ portalBaseURI w' = portalBaseURI w2
                         /\ logLevel w' = logLevel w2))
    with (op := op) (options := options) (callback := callback) (w := w)
    as (h' & w1' & Hrun' & Hkeeps).
  - intros level str _ w' H. rewrite log_run. cbn [snd]. unfold logged.
    destruct (logLevel w' <? level); exact H.
  - intros cb err data w' H. unfold invoke. destruct (cb err data); exact H.
  - intros o v w' H. destruct o; exact H.
  - rewrite Hrun in Hrun'. injection Hrun' as <- <-.
    exists h, w1, req. repeat split; auto; now apply Hkeeps.
Qed.

(** X10.  For every operation, a transport error goes to the completion
    callback as it is: the handler invokes the callback the caller supplied
    exactly once, with the transport's error and a [null] body, whatever
    response and body come with it, and ends as that invocation does: it
    returns when the callback returns (or when there is none) and throws
    what the callback throws. *)
Theorem transport_error_reported_once (op : operation) (options : value)
    (callback : option nodeBack) (w : world)
    (error : value) (response : option response) (body : value) (w2 : world) :
  Js.truthy error = true ->
  exists h w1 w3,
    call op options callback w = (Ret h, w1)
    /\ h error response body w2
       = (outcome (match callback with
                   | Some f => f error VNull
                   | None => None
                   end), w3)
    /\ calls w3 = (calls w2 ++ [(error, VNull)])%list.
Proof.
  intros Herr.
  destruct (call_issues op options callback w)
    as (h & w1 & req & Hrun & _ & _ & Hfail & _).
  destruct (Hfail error response body w2 Herr) as (w3 & Hh & Hcalls & _).
  exists h, w1, w3. split; [exact Hrun|].
  split; [rewrite Hh; now destruct callback | exact Hcalls].
Qed.

Lemma transport_error_reported_once_witness :
  Js.truthy (VError "Error" "getaddrinfo ENOTFOUND") = true
  /\ exists h w1 w3,
       call ChargeState VUndefined
         (Some (fun err _ => if Js.truthy err then Some (VStr "unhandled") else None))
         (initial_world VUndefined 0) = (Ret h, w1)
       /\ h (VError "Error" "getaddrinfo ENOTFOUND") None VUndefined
            (initial_world VUndefined 0)
          = (outcome (match Some (fun err (_ : value) =>
                                    if Js.truthy err then Some (VStr "unhandled")
                                    else None) with
                      | Some f => f (VError "Error" "getaddrinfo ENOTFOUND") VNull
                      | None => None
                      end), w3)
       /\ calls w3
          = (calls (initial_world VUndefined 0)
             ++ [(VError "Error" "getaddrinfo ENOTFOUND", VNull)])%list.
Proof.
  split; [reflexivity|].
  apply (transport_error_reported_once ChargeState VUndefined
           (Some (fun err _ => if Js.truthy err then Some (VStr "unhandled") else None))
           (initial_world VUndefined 0) (VError "Error" "getaddrinfo ENOTFOUND")
           None VUndefined (initial_world VUndefined 0)).
  reflexivity.
Defined.

Example chargeState_error_throwing_callback :
  match chargeState VUndefined
          (Some (fun err _ => if Js.truthy err then Some (VStr "unhandled") else None))
          (initial_world VUndefined 0) with
  | (Ret h, w) =>
      h (VError "Error" "getaddrinfo ENOTFOUND") None VUndefined w
      = (Throw (VStr "unhandled"),
         add_call (VError "Error" "getaddrinfo ENOTFOUND") VNull w)
  | (Throw _, _) => False
  end.
Proof. reflexivity. Qed.

Ltac delivers_proof :=
  call_phase; eexists; eexists; (split; [reflexivity|]);
  intros error r body' w2 Herr Hstatus; cbv beta;
  rewrite Herr, Hstatus; cbn [Z.eqb Pos.eqb negb];
  split;
  [ intros Hcb; run; unfold invoke; rewrite Hcb; run;
    eexists; split; [reflexivity | frame]
  | intros e Hcb; run; unfold invoke; rewrite Hcb; run;
    match goal with |- context [?cb e VNull] => destruct (cb e VNull) end; run;
    eexists; (split; [reflexivity|]); frame;
    rewrite <- app_assoc; reflexivity ].

Lemma get_command_delivers options command callback w :
  call_delivers (get_command options command callback) w (or_do_nothing callback).
Proof. unfold call_delivers, delivers, get_command. delivers_proof. Qed.

Lemma post_command_delivers options command body callback w :
  call_delivers (post_command options command body callback) w (or_do_nothing callback).
Proof. unfold call_delivers, delivers, post_command. delivers_proof. Qed.

Lemma vehicles_delivers options callback w :
  call_delivers (vehicles options callback) w (or_do_nothing callback).
Proof. unfold call_delivers, delivers, vehicles. delivers_proof. Qed.

(** X11.  For every operation but [vehicle], a 200 response hands the body
    to the callback the caller supplied, unchanged and with a [null] error;
    when that invocation returns (or there is no callback) the handler
    returns normally.  A callback that throws while it handles the body is
    invoked a second time, with what it threw as error and a [null] body,
    and the handler then ends as that second invocation does. *)
Theorem body_delivered_on_200 (op : operation) (options : value)
    (callback : option nodeBack) (w : world)
    (error : value) (r : response) (body : value) (w2 : world) :
  op <> Vehicle ->
  Js.truthy error = false ->
  statusCode r = 200 ->
  exists h w1 w3,
    call op options callback w = (Ret h, w1)
    /\ h error (Some r) body w2
       = (match callback with
          | Some f =>
              match f VNull body with
              | None => Ret tt
              | Some e => outcome (f e VNull)
              end
          | None => Ret tt
          end, w3)
    /\ calls w3
       = (calls w2
          ++ (VNull, body)
             :: match callback with
                | Some f =>
                    match f VNull body with
                    | None => []
                    | Some e => [(e, VNull)]
                    end
                | None => []
                end)%list.
Proof.
  intros Hop Herr Hstatus.
  enough (H : call_delivers (call op options callback) w (or_do_nothing callback)).
  { destruct H as (h & w1 & Hrun & Hd).
    destruct (Hd error r body w2 Herr Hstatus) as [Hreturns Hthrows].
    destruct callback as [f|]; cbn [or_do_nothing] in Hreturns, Hthrows.
    - destruct (f VNull body) as [e|] eqn:Hf.
      + destruct (Hthrows e eq_refl) as (w3 & Hh & Hcalls).
        exists h, w1, w3. auto.
      + destruct (Hreturns eq_refl) as (w3 & Hh & Hcalls).
        exists h, w1, w3. auto.
    - destruct (Hreturns eq_refl) as (w3 & Hh & Hcalls).
      exists h, w1, w3. auto. }
  destruct op; try contradiction; cbn [call]; unfold_wrappers;
    lazymatch goal with
    | |- call_delivers (get_command _ _ _) _ _ => apply get_command_delivers
    | |- call_delivers (post_command _ _ _ _) _ _ => apply post_command_delivers
    | |- call_delivers (vehicles _ _) _ _ => apply vehicles_delivers
    | |- _ => idtac
    end.
  unfold call_delivers, Date_now. rewrite bind_read_run.
  apply post_command_delivers.
Qed.

Lemma body_delivered_on_200_witness :
  DriveState <> Vehicle
  /\ Js.truthy VNull = false
  /\ statusCode (mkResponse 200 "OK") = 200
  /\ exists h w1 w3,
       call DriveState VUndefined
         (Some (fun err _ => if Js.truthy err then None else Some (VStr "no speed")))
         (initial_world VUndefined 0) = (Ret h, w1)
       /\ h VNull (Some (mkResponse 200 "OK")) (VObj [("speed", VNull)])
            (initial_world VUndefined 0)
          = (match Some (fun err (_ : value) =>
                           if Js.truthy err then None else Some (VStr "no speed")) with
             | Some f =>
                 match f VNull (VObj [("speed", VNull)]) with
                 | None => Ret tt
                 | Some e => outcome (f e VNull)
                 end
             | None => Ret tt
             end, w3)
       /\ calls w3
          = (calls (initial_world VUndefined 0)
             ++ (VNull, VObj [("speed", VNull)])
                :: match Some (fun err (_ : value) =>
                                 if Js.truthy err then None
                                 else Some (VStr "no speed")) with
                   | Some f =>
                       match f VNull (VObj [("speed", VNull)]) with
                       | None => []
                       | Some e => [(e, VNull)]
                       end
                   | None => []
                   end)%list.
Proof.
  split; [discriminate|]. split; [reflexivity|]. split; [reflexivity|].
  apply (body_delivered_on_200 DriveState VUndefined
           (Some (fun err _ => if Js.truthy err then None else Some (VStr "no speed")))
           (initial_world VUndefined 0) VNull (mkResponse 200 "OK")
           (VObj [("speed", VNull)]) (initial_world VUndefined 0));
    [discriminate | reflexivity | reflexivity].
Defined.

Example driveState_200_throwing_callback :
  match driveState VUndefined
          (Some (fun err _ => if Js.truthy err then None else Some (VStr "no speed")))
          (initial_world VUndefined 0) with
  | (Ret h, w) =>
      h VNull (Some (mkResponse 200 "OK")) (VObj [("speed", VNull)]) w
      = (Ret tt,
         add_call (VStr "no speed") VNull
           (add_call VNull (VObj [("speed", VNull)]) w))
  | (Throw _, _) => False
  end.
Proof. reflexivity. Qed.

Lemma lookup_set_field (fields : object) (key : string) (v : value) :
  Js.lookup (set_field fields key v) key = v.
Proof.
  induction fields as [|[k x] rest IH]; simpl.
  - now rewrite String.eqb_refl.
  - destruct (k =? key)%string eqn:E; simpl; rewrite E; [reflexivity | exact IH].
Qed.

Lemma lookup_set_field_other (fields : object) (key other : string) (v : value) :
  other <> key ->
  Js.lookup (set_field fields key v) other = Js.lookup fields other.
Proof.
  intros Hne. induction fields as [|[k x] rest IH]; simpl.
  - apply String.eqb_neq in Hne. now rewrite String.eqb_sym, Hne.
  - destruct (String.eqb_spec k key) as [-> | Hk]; simpl.
    + apply String.eqb_neq in Hne. now rewrite String.eqb_sym, Hne.
    + now rewrite IH.
Qed.

(** X12.  On a 200 response whose body is an object, and with options that
    are an object, the handler of [vehicle] copies the body's [id_s] into
    its [id] (every other property of the body is as it was), writes that
    identifier into the options as [vehicleID], and hands the body to the
    callback the caller supplied.  When that invocation returns (or there
    is no callback) the handler returns normally; when it throws, the
    callback is invoked a second time, with what it threw as error and a
    [null] body, and the handler ends as that second invocation does.  The
    write to the options is made in both cases, once. *)
Theorem vehicle_copies_id (options_fields fields : object)
    (callback : option nodeBack) (w : world)
    (error : value) (r : response) (w2 : world) :
  Js.truthy error = false ->
  statusCode r = 200 ->
  exists h w1 w3 body,
    vehicle (VObj options_fields) callback w = (Ret h, w1)
    /\ h error (Some r) (VObj fields) w2
       = (match callback with
          | Some f =>
              match f VNull body with
              | None => Ret tt
              | Some e => outcome (f e VNull)
              end
          | None => Ret tt
          end, w3)
    /\ calls w3
       = (calls w2
          ++ (VNull, body)
             :: match callback with
                | Some f =>
                    match f VNull body with
                    | None => []
                    | Some e => [(e, VNull)]
                    end
                | None => []
                end)%list
    /\ writes w3 = (writes w2 ++ [("vehicleID", Js.lookup fields "id_s")])%list
    /\ Js.get body "id" = Js.lookup fields "id_s"
    /\ (forall key, key <> "id" -> Js.get body key = Js.lookup fields key).
Proof.
  intros Herr Hstatus. unfold vehicle. call_phase.
  match goal with
  | |- context [(Ret ?c, ?ww)] =>
      enough (H : exists w3,
                c error (Some r) (VObj fields) w2
                = (match or_do_nothing callback VNull
                           (VObj (set_field fields "id" (Js.lookup fields "id_s"))) with
                   | None => Ret tt
                   | Some e => outcome (or_do_nothing callback e VNull)
                   end, w3)
                /\ calls w3
                   = (calls w2
                      ++ (VNull, VObj (set_field fields "id" (Js.lookup fields "id_s")))
                         :: match or_do_nothing callback VNull
                                    (VObj (set_field fields "id"
                                             (Js.lookup fields "id_s"))) with
                            | None => []
                            | Some e => [(e, VNull)]
                            end)%list
                /\ writes w3
                   = (writes w2 ++ [("vehicleID", Js.lookup fields "id_s")])%list)
        by (destruct H as (w3 & Hh & Hcalls & Hwrites);
            exists c, ww, w3, (VObj (set_field fields "id" (Js.lookup fields "id_s")));
            split; [reflexivity|];
            split; [rewrite Hh; now destruct callback|];
            split; [rewrite Hcalls; now destruct callback|];
            split; [exact Hwrites|];
            split; [apply lookup_set_field|];
            intros key Hkey; now apply lookup_set_field_other)
  end.
  cbv beta. rewrite Herr, Hstatus.
  cbn [Z.eqb Pos.eqb negb copy_id]. run. cbn [Js.get set_vehicleID].
  rewrite lookup_set_field. unfold invoke.
  destruct (or_do_nothing callback VNull
              (VObj (set_field fields "id" (Js.lookup fields "id_s")))) as [e|];
    run; [destruct (or_do_nothing callback e VNull); run|];
    eexists; (split; [reflexivity|]); (split; [frame; rewrite <- ?app_assoc; reflexivity|]);
    unfold logged; cbn;
    repeat match goal with |- context [if ?b then _ else _] => destruct b end;
    reflexivity.
Qed.

Lemma vehicle_copies_id_witness :
  Js.truthy VNull = false
  /\ statusCode (mkResponse 200 "OK") = 200
  /\ exists h w1 w3 body,
       vehicle (VObj [])
         (Some (fun err _ => if Js.truthy err then None else Some (VStr "not mine")))
         (initial_world VUndefined 0) = (Ret h, w1)
       /\ h VNull (Some (mkResponse 200 "OK"))
            (VObj [("id_s", VStr "42"); ("vin", VStr "5YJSA1E26LF000316")])
            (initial_world VUndefined 0)
          = (match Some (fun err (_ : value) =>
                           if Js.truthy err then None else Some (VStr "not mine")) with
             | Some f =>
                 match f VNull body with
                 | None => Ret tt
                 | Some e => outcome (f e VNull)
                 end
             | None => Ret tt
             end, w3)
       /\ calls w3
          = (calls (initial_world VUndefined 0)
             ++ (VNull, body)
                :: match Some (fun err (_ : value) =>
                                 if Js.truthy err then None
                                 else Some (VStr "not mine")) with
                   | Some f =>
                       match f VNull body with
                       | None => []
                       | Some e => [(e, VNull)]
                       end
                   | None => []
                   end)%list
       /\ writes w3
          = (writes (initial_world VUndefined 0)
             ++ [("vehicleID",
                  Js.lookup [("id_s", VStr "42"); ("vin", VStr "5YJSA1E26LF000316")]
                    "id_s")])%list
       /\ Js.get body "id"
          = Js.lookup [("id_s", VStr "42"); ("vin", VStr "5YJSA1E26LF000316")] "id_s"
       /\ (forall key, key <> "id" ->
           Js.get body key
           = Js.lookup [("id_s", VStr "42"); ("vin", VStr "5YJSA1E26LF000316")] key).
Proof.
  split; [reflexivity|]. split; [reflexivity|].
  apply (vehicle_copies_id [] [("id_s", VStr "42"); ("vin", VStr "5YJSA1E26LF000316")]
           (Some (fun err _ => if Js.truthy err then None else Some (VStr "not mine")))
           (initial_world VUndefined 0) VNull (mkResponse 200 "OK")
           (initial_world VUndefined 0)); reflexivity.
Defined.

Example vehicle_200_throwing_callback :
  match vehicle (VObj [])
          (Some (fun err _ => if Js.truthy err then None else Some (VStr "not mine")))
          (initial_world VUndefined 0) with
  | (Ret h, w) =>
      h VNull (Some (mkResponse 200 "OK"))
        (VObj [("id_s", VStr "42"); ("vin", VStr "5YJSA1E26LF000316")]) w
      = (Ret tt,
         add_call (VStr "not mine") VNull
           (add_call VNull
              (VObj [("id_s", VStr "42"); ("vin", VStr "5YJSA1E26LF000316");
                     ("id", VStr "42")])
              (add_write "vehicleID" (VStr "42") w)))
  | (Throw _, _) => False
  end.
Proof. reflexivity. Qed.

(** X13.  On a 200 response, [vehicle] reports a TypeError to the callback
    instead of the body when the body is not an object ([undefined], [null]
    or a primitive: its [id] cannot be set) or when the options are not an
    object (their [vehicleID] cannot be set).  The callback the caller
    supplied is invoked once, with the TypeError and a [null] body, the
    handler ends as that invocation does, and nothing is written to the
    options. *)
Theorem vehicle_reports_type_error (options : value) (callback : option nodeBack)
    (w : world) (error : value) (r : response) (body : value) (w2 : world) :
  Js.truthy error = false ->
  statusCode r = 200 ->
  has_properties body = false \/ has_properties options = false ->
  exists h w1 w3 message,
    vehicle options callback w = (Ret h, w1)
    /\ h error (Some r) body w2
       = (outcome (match callback with
                   | Some f => f (Js.TypeError message) VNull
                   | None => None
                   end), w3)
    /\ calls w3 = (calls w2 ++ [(Js.TypeError message, VNull)])%list
    /\ writes w3 = writes w2.
Proof.
  intros Herr Hstatus Hbad. unfold vehicle. call_phase.
  match goal with
  | |- context [(Ret ?c, ?ww)] =>
      enough (H : exists w3 message,
                c error (Some r) body w2
                = (outcome (or_do_nothing callback (Js.TypeError message) VNull), w3)
                /\ calls w3 = (calls w2 ++ [(Js.TypeError message, VNull)])%list
                /\ writes w3 = writes w2)
        by (destruct H as (w3 & message & Hh & H); exists c, ww, w3, message;
            split; [reflexivity|];
            split; [rewrite Hh; now destruct callback | exact H])
  end.
  cbv beta. rewrite Herr, Hstatus. cbn [Z.eqb Pos.eqb negb]. unfold Js.TypeError.
  destruct body, options;
    try (destruct Hbad as [Hbad | Hbad]; discriminate Hbad);
    cbn [copy_id set_vehicleID]; run; cbn [set_vehicleID]; run; unfold invoke;
    unfold Js.TypeError;
    match goal with
    | |- context [or_do_nothing callback (VError "TypeError" ?m) VNull] =>
        destruct (or_do_nothing callback (VError "TypeError" m) VNull) eqn:Hcb;
        run; eexists; exists m; rewrite Hcb
    end;
    (split; [reflexivity|]); (split; [frame|]);
    unfold logged; cbn;
    repeat match goal with |- context [if ?b then _ else _] => destruct b end;
    reflexivity.
Qed.

Lemma vehicle_reports_type_error_witness :
  Js.truthy VNull = false
  /\ statusCode (mkResponse 200 "OK") = 200
  /\ (has_properties (VObj [("id_s", VStr "42")]) = false
      \/ has_properties VUndefined = false)
  /\ exists h w1 w3 message,
       vehicle VUndefined
         (Some (fun err _ => if Js.truthy err then Some err else None))
         (initial_world VUndefined 0) = (Ret h, w1)
       /\ h VNull (Some (mkResponse 200 "OK")) (VObj [("id_s", VStr "42")])
            (initial_world VUndefined 0)
          = (outcome (match Some (fun err (_ : value) =>
                                    if Js.truthy err then Some err else None) with
                      | Some f => f (Js.TypeError message) VNull
                      | None => None
                      end), w3)
       /\ calls w3
          = (calls (initial_world VUndefined 0) ++ [(Js.TypeError message, VNull)])%list
       /\ writes w3 = writes (initial_world VUndefined 0).
Proof.
  split; [reflexivity|]. split; [reflexivity|]. split; [right; reflexivity|].
  apply (vehicle_reports_type_error VUndefined
           (Some (fun err _ => if Js.truthy err then Some err else None))
           (initial_world VUndefined 0)
           VNull (mkResponse 200 "OK") (VObj [("id_s", VStr "42")])
           (initial_world VUndefined 0)); [reflexivity | reflexivity | right; reflexivity].
Defined.

Example vehicle_200_without_options :
  match vehicle VUndefined
          (Some (fun err _ => if Js.truthy err then Some err else None))
          (initial_world VUndefined 0) with
  | (Ret h, w) =>
      h VNull (Some (mkResponse 200 "OK")) (VObj [("id_s", VStr "42")]) w
      = (Throw (Js.TypeError "Cannot set property 'vehicleID' of undefined"),
         add_call (Js.TypeError "Cannot set property 'vehicleID' of undefined") VNull w)
  | (Throw _, _) => False
  end.
Proof. reflexivity. Qed.

Lemma logged_quiet (level : Z) (str : line) (w : world) :
  logLevel w < level -> logged level str w = w.
Proof. intros H. unfold logged. apply Z.ltb_lt in H. now rewrite H. Qed.

(** X14.  While the log level is below 1 -- it is 0 when the module is
    loaded -- no operation prints anything: neither the call nor its
    handler, whatever the transport reports, adds a line to the console. *)
Theorem nothing_logged_below_level_1 (op : operation) (options : value)
    (callback : option nodeBack) (w : world)
    (error : value) (response : option response) (body : value) (w2 : world) :
  logLevel w < 1 ->
  logLevel w2 < 1 ->
  exists h w1,
    call op options callback w = (Ret h, w1)
    /\ console w1 = console w
    /\ console (snd (h error response body w2)) = console w2.
Proof.
  intros Hw Hw2.
  destruct (call_sends op options callback w)
    as (h & suffix & req_body & first_line & Hrun).
  destruct (call_handler_keeps (fun w' => logLevel w' < 1 /\ console w' = console w2))
    with (op := op) (options := options) (callback := callback) (w := w)
    as (h' & w1' & Hrun' & Hkeeps).
  - intros level str Hlevel w' [Hq Hc]. rewrite log_run. cbn [snd].
    rewrite logged_quiet by lia. auto.
  - intros cb err data w' H. unfold invoke. destruct (cb err data); exact H.
  - intros o v w' H. destruct o; exact H.
  - rewrite Hrun in Hrun'. injection Hrun' as <- <-.
    eexists; eexists. split; [exact Hrun|]. split.
    + rewrite !logged_quiet; [reflexivity | unfold API_CALL_LEVEL; lia |].
      rewrite logged_quiet; unfold API_REQUEST_LEVEL, API_CALL_LEVEL; lia.
    + now apply Hkeeps.
Qed.

Lemma nothing_logged_below_level_1_witness :
  logLevel (initial_world VUndefined 0) < 1
  /\ logLevel (initial_world VUndefined 0) < 1
  /\ exists h w1,
       call WakeUp VUndefined None (initial_world VUndefined 0) = (Ret h, w1)
       /\ console w1 = console (initial_world VUndefined 0)
       /\ console (snd (h (VError "Error" "timeout") None VUndefined
                          (initial_world VUndefined 0)))
          = console (initial_world VUndefined 0).
Proof.
  split; [reflexivity|]. split; [reflexivity|].
  apply (nothing_logged_below_level_1 WakeUp VUndefined None
           (initial_world VUndefined 0) (VError "Error" "timeout") None VUndefined
           (initial_world VUndefined 0)); reflexivity.
Defined.

(** ** The clamps, continued *)

(** X15.  Clamping is idempotent, whatever the bounds; it never lowers the
    order of two numbers; and it lets [NaN] through unchanged, since every
    comparison with [NaN] is false. *)
Theorem clamp_idempotent_monotone (v lo hi : number) (x y l u : Z) :
  x <= y ->
  clamp (clamp v lo hi) lo hi = clamp v lo hi
  /\ clamp NaN lo hi = NaN
  /\ exists p q,
       clamp (Num x) (Num l) (Num u) = Num p
       /\ clamp (Num y) (Num l) (Num u) = Num q
       /\ p <= q.
Proof.
  intros Hxy. split; [|split].
  - unfold clamp, Js.gtb, Js.ltb.
    destruct v as [|a], lo as [|b], hi as [|c]; try reflexivity;
      repeat match goal with
             | |- context [?m <? ?n] => destruct (Z.ltb_spec m n)
             end; try reflexivity; try lia.
  - unfold clamp, Js.gtb, Js.ltb. destruct lo, hi; reflexivity.
  - unfold clamp, Js.gtb, Js.ltb.
    destruct (Z.ltb_spec x l), (Z.ltb_spec y l);
      repeat match goal with
             | |- context [?m <? ?n] => destruct (Z.ltb_spec m n)
             end; eexists; eexists; (split; [reflexivity|]);
      (split; [reflexivity|]); lia.
Qed.

Lemma clamp_idempotent_monotone_witness :
  10 <= 30
  /\ clamp (clamp (Num 150) (Num 50) (Num 100)) (Num 50) (Num 100)
     = clamp (Num 150) (Num 50) (Num 100)
  /\ clamp NaN (Num 50) (Num 100) = NaN
  /\ exists p q,
       clamp (Num 10) (Num 15) (Num 28) = Num p
       /\ clamp (Num 30) (Num 15) (Num 28) = Num q
       /\ p <= q.
Proof.
  split; [lia|].
  apply (clamp_idempotent_monotone (Num 150) (Num 50) (Num 100) 10 30 15 28). lia.
Defined.

(** ** The wrappers, continued *)

Lemma encode_number (n : number) :
  URLSearchParams.encode (Js.number_to_string n) = Js.number_to_string n.
Proof. apply encode_unreserved, number_unreserved. Qed.

(** X16.  The URL of a charge-limit call ends in [set_charge_limit?percent=]
    followed by the decimal text of the clamped percent, and the URL of a
    set-temperatures call in [set_temps?driver_temp=], the clamped driver
    temperature, [&passenger_temp=] and the clamped passenger temperature:
    the caller's when it is truthy, the driver's otherwise.  A percent that
    is [NaN] is not clamped: it is sent as [percent=NaN]. *)
Theorem clamped_values_in_url (options : value) (amt driver : number)
    (pass : option number) (callback : option nodeBack) (w : world) :
  (exists h w1 req,
     setChargeLimit options amt callback w = (Ret h, w1)
     /\ sent w1 = (sent w ++ [req])%list
     /\ req_url req
        = portalBaseURI w ++ "set_charge_limit?percent="
          ++ Js.number_to_string (clamp amt CHARGE_STORAGE CHARGE_RANGE))
  /\ (exists h w1 req,
        setChargeLimit options NaN callback w = (Ret h, w1)
        /\ sent w1 = (sent w ++ [req])%list
        /\ req_url req = portalBaseURI w ++ "set_charge_limit?percent=NaN"
        /\ req_body req = Some (VObj [("percent", VNum NaN)]))
  /\ (exists h w1 req,
        setTemps options driver pass callback w = (Ret h, w1)
        /\ sent w1 = (sent w ++ [req])%list
        /\ req_url req
           = portalBaseURI w ++ "set_temps?driver_temp="
             ++ Js.number_to_string (clamp driver MIN_TEMP MAX_TEMP)
             ++ "&passenger_temp="
             ++ Js.number_to_string
                  (clamp (match pass with
                          | Some p => if Js.truthy (VNum p) then p else driver
                          | None => driver
                          end) MIN_TEMP MAX_TEMP)).
Proof.
  split; [|split].
  - unfold setChargeLimit.
    match goal with
    | |- context [post_command options ?c ?payload callback w] =>
        destruct (post_command_request options c payload callback w)
          as (h & w1 & Hrun & Hsent)
    end.
    eexists h, w1, _. split; [exact Hrun|]. split; [exact Hsent|].
    cbn [req_url]. rewrite QueryFacts.toString_concat.
    cbn [URLSearchParams.new map fst snd String.concat Js.ToString].
    unfold pair_text; cbn [fst snd].
    rewrite encode_number. reflexivity.
  - unfold setChargeLimit.
    match goal with
    | |- context [post_command options ?c ?payload callback w] =>
        destruct (post_command_request options c payload callback w)
          as (h & w1 & Hrun & Hsent)
    end.
    eexists h, w1, _. split; [exact Hrun|]. split; [exact Hsent|].
    split; reflexivity.
  - unfold setTemps.
    match goal with
    | |- context [post_command options ?c ?payload callback w] =>
        destruct (post_command_request options c payload callback w)
          as (h & w1 & Hrun & Hsent)
    end.
    eexists h, w1, _. split; [exact Hrun|]. split; [exact Hsent|].
    cbn [req_url]. rewrite QueryFacts.toString_concat.
    cbn [URLSearchParams.new map fst snd String.concat Js.ToString].
    unfold pair_text; cbn [fst snd].
    rewrite !encode_number.
    destruct pass as [p|]; [|reflexivity].
    cbn [optional]. destruct (Js.truthy (VNum p)); reflexivity.
Qed.

(** X17.  An entry built by [makeCalendarEntry] and sent with [calendar]
    goes out whole in the request body only: its single top-level property
    holds an object, which the query string renders as [[object Object]], so
    the URL is the same whatever the event is. *)
Theorem calendar_entry_url
    (eventName location startTime endTime accountName phoneName : value)
    (options : value) (callback : option nodeBack) (w : world) :
  exists h w1 entry,
    (entry <- makeCalendarEntry eventName location startTime endTime
                accountName phoneName ;;
     calendar options (Some entry) callback) w = (Ret h, w1)
    /\ fst (makeCalendarEntry eventName location startTime endTime
              accountName phoneName w) = Ret entry
    /\ sent w1 =
       (sent w ++
        [ mkRequest "GET"
            (portalBaseURI w
             ++ "upcoming_calendar_entries?calendar_data=%5Bobject+Object%5D")
            [("X-SSL-Client-S-CN", env_VIN w)] (Some (VObj entry)) ])%list.
Proof.
  unfold makeCalendarEntry, calendar, Date_now, bind, read, ret. cbn beta iota.
  match goal with
  | |- context [post_command options ?c ?payload callback w] =>
      destruct (post_command_request options c payload callback w)
        as (h & w1 & Hrun & Hsent)
  end.
  eexists h, w1, _. split; [exact Hrun|]. split; [reflexivity|].
  rewrite Hsent. reflexivity.
Qed.

(** X18.  A navigation request names its destination in the request body
    only.  The query string carries the type, [[object Object]] for the
    value that holds subject and text, the locale and the time of the call,
    so the URL does not depend on the subject or the text. *)
Theorem navigationRequest_url (options subject text locale : value)
    (callback : option nodeBack) (w : world) :
  exists h w1 req,
    navigationRequest options subject text locale callback w = (Ret h, w1)
    /\ sent w1 = (sent w ++ [req])%list
    /\ req_url req
       = portalBaseURI w
         ++ "navigation_request?type=share_ext_content_raw&value=%5Bobject+Object%5D&locale="
         ++ URLSearchParams.encode (Js.ToString locale)
         ++ "&timestamp_ms=" ++ Js.number_to_string (Num (clock w))
    /\ Js.get (match req_body req with Some b => Js.get b "value" | None => VUndefined end)
         "android.intent.extra.SUBJECT" = subject
    /\ Js.get (match req_body req with Some b => Js.get b "value" | None => VUndefined end)
         "android.intent.extra.TEXT" = text.
Proof.
  unfold navigationRequest, Date_now. rewrite bind_read_run.
  match goal with
  | |- context [post_command options ?c ?payload callback w] =>
      destruct (post_command_request options c payload callback w)
        as (h & w1 & Hrun & Hsent)
  end.
  eexists h, w1, _. split; [exact Hrun|]. split; [exact Hsent|].
  split; [|split; reflexivity].
  cbn [req_url]. rewrite QueryFacts.toString_concat.
  cbn [URLSearchParams.new map fst snd String.concat Js.ToString].
    unfold pair_text; cbn [fst snd].
  rewrite encode_number. reflexivity.
Qed.

(** ** The module configuration *)

Lemma setPortalBaseURI_run (uri : option string) (w : world) :
  setPortalBaseURI uri w = (Ret tt, set_portalBaseURI (effective_base uri) w).
Proof.
  unfold setPortalBaseURI, effective_base. destruct uri as [u|]; [|reflexivity].
  cbn [Js.truthy]. destruct (u =? "")%string; reflexivity.
Qed.

(** X19.  [setPortalBaseURI] takes effect on every later call: the request
    of whatever operation follows starts with the URI that was set, or with
    the default portal when the argument was missing or empty, and
    [getPortalBaseURI] returns that same URI.  Nothing else of the request
    changes: it still carries the VIN header of the environment. *)
Theorem setPortalBaseURI_redirects (uri : option string) (op : operation)
    (options : value) (callback : option nodeBack) (w : world) :
  exists h w1 suffix body,
    (setPortalBaseURI uri ;; call op options callback) w = (Ret h, w1)
    /\ sent w1 =
       (sent w ++ [ mkRequest "GET" (effective_base uri ++ suffix)
                      [("X-SSL-Client-S-CN", env_VIN w)] body ])%list
    /\ fst ((setPortalBaseURI uri ;; getPortalBaseURI) w) = Ret (effective_base uri)
    /\ effective_base None = portal
    /\ effective_base (Some "") = portal.
Proof.
  destruct (call_sends op options callback (set_portalBaseURI (effective_base uri) w))
    as (h & suffix & body & first_line & Hrun).
  exists h. eexists. exists suffix, body.
  unfold bind at 1. rewrite setPortalBaseURI_run. split; [exact Hrun|].
  split; [frame|].
  split; [|split; reflexivity].
  unfold bind. rewrite setPortalBaseURI_run. reflexivity.
Qed.

Example setPortalBaseURI_reset :
  map req_url
    (sent (snd ((setPortalBaseURI (Some "http://localhost/") ;;
                 setPortalBaseURI None ;;
                 doorLock VUndefined None) (initial_world VUndefined 0))))
  = ["https://owner-api.teslamotors.comdoor_lock?"].
Proof. reflexivity. Qed.

(** ** The transport's contract *)

Ltac needs_response_proof :=
  call_phase; eexists; eexists; (split; [reflexivity|]);
  intros error body' w2 Herr; cbv beta; rewrite Herr; reflexivity.

Lemma call_needs_response_all (op : operation) (options : value)
    (callback : option nodeBack) (w : world) :
  call_needs_response (call op options callback) w.
Proof.
  destruct op; cbn [call]; unfold_wrappers;
    unfold call_needs_response, needs_response, get_command, post_command,
      vehicle, vehicles, Date_now;
    needs_response_proof.
Qed.

(** X20.  The handlers rely on the transport to pass an error or a
    response.  Called with neither, the handler of every operation throws a
    TypeError when it reads the status code: the callback is not invoked and
    the world is left as it was. *)
Theorem handler_needs_error_or_response (op : operation) (options : value)
    (callback : option nodeBack) (w : world)
    (error : value) (body : value) (w2 : world) :
  Js.truthy error = false ->
  exists h w1 message,
    call op options callback w = (Ret h, w1)
    /\ h error None body w2 = (Throw (Js.TypeError message), w2).
Proof.
  intros Herr.
  destruct (call_needs_response_all op options callback w) as (h & w1 & Hrun & Hh).
  exists h, w1. eexists. split; [exact Hrun|]. apply Hh. exact Herr.
Qed.

Lemma handler_needs_error_or_response_witness :
  Js.truthy VUndefined = false
  /\ exists h w1 message,
       call GuiSettings VUndefined
         (Some (fun err _ => if Js.truthy err then Some err else None))
         (initial_world VUndefined 0) = (Ret h, w1)
       /\ h VUndefined None VUndefined (initial_world VUndefined 0)
          = (Throw (Js.TypeError message), initial_world VUndefined 0).
Proof.
  split; [reflexivity|].
  apply (handler_needs_error_or_response GuiSettings VUndefined
           (Some (fun err _ => if Js.truthy err then Some err else None))
           (initial_world VUndefined 0) VUndefined VUndefined
           (initial_world VUndefined 0)).
  reflexivity.
Defined.

(** ** The identifier decoder, continued *)

(** X21.  [vinDecode] reads the characters at positions 3, 7 and 9 and
    nothing else: two non-empty identifier strings that agree at these
    three positions decode to the same record, whatever their other
    characters and their lengths are. *)
Theorem vinDecode_reads_three_positions (vehicle1 vehicle2 : value)
    (vin1 vin2 : string) :
  Js.get vehicle1 "vin" = VStr vin1 ->
  Js.get vehicle2 "vin" = VStr vin2 ->
  vin1 <> "" ->
  vin2 <> "" ->
  String.get 3 vin1 = String.get 3 vin2 ->
  String.get 7 vin1 = String.get 7 vin2 ->
  String.get 9 vin1 = String.get 9 vin2 ->
  vinDecode vehicle1 = vinDecode vehicle2.
Proof.
  intros H1 H2 Hne1 Hne2 E3 E7 E9.
  rewrite (vinDecode_string _ _ H1 Hne1), (vinDecode_string _ _ H2 Hne2).
  unfold decoded, Js.charAt, Js.charCodeAt. now rewrite E3, E7, E9.
Qed.

Lemma vinDecode_reads_three_positions_witness :
  Js.get (VObj [("vin", VStr "5YJ3E1EB7JF000001")]) "vin" = VStr "5YJ3E1EB7JF000001"
  /\ Js.get (VObj [("vin", VStr "xxx3xxxBxJ"); ("id", VNull)]) "vin" = VStr "xxx3xxxBxJ"
  /\ "5YJ3E1EB7JF000001" <> ""
  /\ "xxx3xxxBxJ" <> ""
  /\ String.get 3 "5YJ3E1EB7JF000001" = String.get 3 "xxx3xxxBxJ"
  /\ String.get 7 "5YJ3E1EB7JF000001" = String.get 7 "xxx3xxxBxJ"
  /\ String.get 9 "5YJ3E1EB7JF000001" = String.get 9 "xxx3xxxBxJ"
  /\ vinDecode (VObj [("vin", VStr "5YJ3E1EB7JF000001")])
     = vinDecode (VObj [("vin", VStr "xxx3xxxBxJ"); ("id", VNull)]).
Proof.
  repeat (split; [first [reflexivity | discriminate]|]).
  apply (vinDecode_reads_three_positions
           (VObj [("vin", VStr "5YJ3E1EB7JF000001")])
           (VObj [("vin", VStr "xxx3xxxBxJ"); ("id", VNull)])
           "5YJ3E1EB7JF000001" "xxx3xxxBxJ");
    first [reflexivity | discriminate].
Defined.

(** ** Query strings of command calls *)

Lemma all_chars_weaken (p q : ascii -> bool) (s : string) :
  (forall c, p c = true -> q c = true) ->
  all_chars p s = true -> all_chars q s = true.
Proof.
  intros Hpq. induction s as [|c s IH]; [reflexivity|].
  cbn [all_chars]. rewrite !Bool.andb_true_iff. intros [Hc Hs]. auto.
Qed.

Lemma encode_query_char (s : string) :
  all_chars query_char (URLSearchParams.encode s) = true.
Proof.
  apply all_chars_weaken with (p := query_safe); [|apply encode_is_query_safe].
  intros c H. unfold query_char. now rewrite H.
Qed.

Lemma pair_text_query_char (p : string * string) :
  all_chars query_char (pair_text p) = true.
Proof.
  unfold pair_text. now rewrite !all_chars_app, !encode_query_char.
Qed.

Lemma concat_query_char (texts : list string) :
  (forall t, In t texts -> all_chars query_char t = true) ->
  all_chars query_char (String.concat "&" texts) = true.
Proof.
  induction texts as [|t rest IH]; intros H; [reflexivity|].
  destruct rest as [|t' rest'].
  - apply H. now left.
  - change (String.concat "&" (t :: t' :: rest'))
      with (t ++ "&" ++ String.concat "&" (t' :: rest')).
    rewrite !all_chars_app, H by now left.
    rewrite IH by (intros x Hx; apply H; now right). reflexivity.
Qed.

(** X6.  Whatever the payload of a command call holds, the query string of
    its URL is made of letters, digits, [*], [-], [.], [_], [+], [%] and the
    separators [&] and [=] only: no key or value brings a space, a [?], a
    [#] or a [/] into the URL, and the only [&] and [=] in it are the ones
    that separate the pairs. *)
Theorem query_string_is_safe (options : value) (command : string)
    (body : option object) (callback : option nodeBack) (w : world) :
  exists h w1 query req_body,
    post_command options command body callback w = (Ret h, w1)
    /\ sent w1 =
       (sent w ++ [ mkRequest "GET" (portalBaseURI w ++ command ++ "?" ++ query)
                      [("X-SSL-Client-S-CN", env_VIN w)] req_body ])%list
    /\ all_chars query_char query = true
    /\ query_char " " = false /\ query_char "?" = false
    /\ query_char "#" = false /\ query_char "/" = false
    /\ (forall s, all_chars (fun c => negb (Ascii.eqb c "&") && negb (Ascii.eqb c "="))
                    (URLSearchParams.encode s) = true).
Proof.
  destruct (post_command_request options command body callback w)
    as (h & w1 & Hrun & Hsent).
  exists h, w1. eexists; eexists. split; [exact Hrun|]. split; [exact Hsent|].
  split; [|repeat split].
  - rewrite QueryFacts.toString_concat. apply concat_query_char.
    intros t Ht. apply in_map_iff in Ht as (p & <- & _). apply pair_text_query_char.
  - intros s. apply all_chars_weaken with (p := query_safe);
      [|apply encode_is_query_safe].
    intros c. destruct c as [[] [] [] [] [] [] [] []]; vm_compute; congruence.
Qed.

(** ** Token refresh *)

(** C3.  Not every exported operation drops a failure when the caller
    supplies no completion callback: [refreshToken] does not.  Given a
    refresh token it hands its request to the transport and returns, but
    its handler reads [body.access_token] to build the callback's argument
    before it looks at the error, so when the transport fails and passes no
    body ([undefined] or [null]) the handler throws a TypeError: the
    callback, supplied or substituted, is never invoked, and the failure is
    not dropped but raised out of the handler.  The handlers of [vehicle],
    [vehicles], [get_command] and [post_command] test the error first. *)
Theorem refreshToken_throws_on_transport_error (JSON_stringify : value -> value)
    (refresh_token : value) (callback : option nodeBack) (w : world)
    (error : value) (response : option response) (body : value) (w2 : world) :
  Js.truthy refresh_token = true ->
  body = VUndefined \/ body = VNull ->
  exists h w1 w3 message,
    refreshToken JSON_stringify refresh_token callback w = (Ret (Some h), w1)
    /\ h error response body w2 = (Throw (Js.TypeError message), w3)
    /\ calls w3 = calls w2
    /\ sent w3 = sent w2.
Proof.
  intros Htoken Hbody. unfold refreshToken.
  rewrite bind_log_run. cbv zeta. rewrite Htoken. cbn [negb].
  rewrite bind_read_run, bind_log_run.
  unfold bind at 1. unfold request, ret.
  destruct Hbody as [-> | ->];
    do 4 eexists; (split; [reflexivity|]); cbv beta;
    rewrite bind_log_run; unfold bind, throw;
    (split; [reflexivity|]); split; frame.
Qed.

Lemma refreshToken_throws_on_transport_error_witness :
  Js.truthy (VStr "refresh-token") = true
  /\ (VUndefined = VUndefined \/ VUndefined = VNull)
  /\ exists h w1 w3 message,
       refreshToken (fun v => v) (VStr "refresh-token") None (initial_world VUndefined 0)
       = (Ret (Some h), w1)
       /\ h (VError "Error" "connect ECONNREFUSED") None VUndefined
            (initial_world VUndefined 0)
          = (Throw (Js.TypeError message), w3)
       /\ calls w3 = calls (initial_world VUndefined 0)
       /\ sent w3 = sent (initial_world VUndefined 0).
Proof.
  split; [reflexivity|]. split; [left; reflexivity|].
  apply (refreshToken_throws_on_transport_error (fun v => v) (VStr "refresh-token")
           None (initial_world VUndefined 0) (VError "Error" "connect ECONNREFUSED")
           None VUndefined (initial_world VUndefined 0));
    [reflexivity | left; reflexivity].
Defined.

Example refreshToken_with_body :
  match refreshToken (fun v => v) (VStr "refresh-token") None
          (initial_world VUndefined 0) with
  | (Ret (Some h), w) =>
      let answer :=
        h VNull (Some (mkResponse 200 "OK"))
          (VObj [("access_token", VStr "a"); ("refresh_token", VStr "r")]) w in
      fst answer = Ret tt
      /\ map (fun c => Js.get (snd c) "authToken") (calls (snd answer)) = [VStr "a"]
  | _ => False
  end.
Proof. split; reflexivity. Qed.

Example refreshToken_without_token :
  refreshToken (fun v => v) VUndefined None (initial_world VUndefined 0)
  = (Ret None,
     add_call (VStr "refreshToken() requires a refresh_token") VNull
       (initial_world VUndefined 0)).
Proof. reflexivity. Qed.
